(** * Group call settings box (calls/calls_group_settings.cpp)

    A shallow embedding of [SaveCallJoinMuted] and of the handlers that
    [GroupCallSettingsBox] installs, as state-passing programs over the
    objects they touch: the channel, the API request queue, the clipboard,
    the toasts, and the box with its private [State]. *)

From Stdlib Require Import ZArith List String Bool Lia.
Import ListNotations.

Local Open Scope Z_scope.

(** ** A small state monad

    The lambdas of the source mutate objects they hold by pointer; here a
    program over a store [S] returns its result and the new store. *)

Definition M (S A : Type) : Type := S -> A * S.

Definition ret {S A : Type} (x : A) : M S A := fun s => (x, s).

Definition bind {S A B : Type} (m : M S A) (k : A -> M S B) : M S B :=
  fun s => k (fst (m s)) (snd (m s)).

Definition gets {S A : Type} (f : S -> A) : M S A := fun s => (f s, s).

Definition modify {S : Type} (f : S -> S) : M S unit := fun s => (tt, f s).

Definition exec {S A : Type} (m : M S A) (s : S) : S := snd (m s).

Definition retval {S A : Type} (m : M S A) (s : S) : A := fst (m s).

Declare Scope prog_scope.
Delimit Scope prog_scope with prog.
Notation "x <- m ;; k" := (bind m (fun x => k))
  (at level 61, m at next level, right associativity) : prog_scope.
Notation "m ;; k" := (bind m (fun _ => k))
  (at level 61, right associativity) : prog_scope.
Local Open Scope prog_scope.

(** ** Remote API values (the generated MTP scheme is not part of the file) *)

(** [MTPphone_ToggleGroupCallSettings::Flag]. *)
Inductive ToggleGroupCallSettingsFlag : Type :=
| f_join_muted.

(** [MTPExportedChatInvite]: [result.type()] is the constructor. *)
Inductive MTPExportedChatInvite : Type :=
| chatInviteEmpty
| chatInviteExported (vlink : string).

Inductive MTPRequest : Type :=
| MTPphone_ToggleGroupCallSettings
    (flags : list ToggleGroupCallSettingsFlag) (call : Z) (join_muted : bool)
| MTPmessages_ExportChatInvite (peer : Z).

Definition MTP_flags (f : ToggleGroupCallSettingsFlag)
  : list ToggleGroupCallSettingsFlag := [f].

Definition MTP_bool (b : bool) : bool := b.

Definition isToggleGroupCallSettings (r : MTPRequest) : bool :=
  match r with
  | MTPphone_ToggleGroupCallSettings _ _ _ => true
  | MTPmessages_ExportChatInvite _ => false
  end.

Definition isExportChatInvite (r : MTPRequest) : bool :=
  match r with
  | MTPphone_ToggleGroupCallSettings _ _ _ => false
  | MTPmessages_ExportChatInvite _ => true
  end.

(** ** Session data: [Data::GroupCall] and [ChannelData] *)

(** The observers of [Data::GroupCall] the file calls.  [id] is a [uint64];
    it is only compared for equality. *)
Module Data.

Record GroupCall : Type := mkGroupCall {
  id : Z;
  joinMuted : bool;
  canChangeJoinMuted : bool;
  input : Z
}.

(** Modelled from the spec: [Data::GroupCall::setJoinMutedLocally] is
    declared in data/data_group_call.h, which is not part of the file; it
    "sets join-muted locally on the call". *)
Definition setJoinMutedLocally (muted : bool) (c : GroupCall) : GroupCall :=
  {| id := id c;
     joinMuted := muted;
     canChangeJoinMuted := canChangeJoinMuted c;
     input := input c |}.

End Data.

(** The observers of [ChannelData] the file calls; [call] is the pointer
    [channel->call()], null when the channel has no current call. *)
Record ChannelData : Type := mkChannelData {
  call : option Data.GroupCall;
  canManageCall : bool;
  hasUsername : bool;
  username : string;
  inviteLink : string;
  canHaveInviteLink : bool;
  input : Z
}.

Definition withCall (c : option Data.GroupCall) (ch : ChannelData)
  : ChannelData :=
  {| call := c;
     canManageCall := canManageCall ch;
     hasUsername := hasUsername ch;
     username := username ch;
     inviteLink := inviteLink ch;
     canHaveInviteLink := canHaveInviteLink ch;
     input := input ch |}.

(** Modelled from the spec: [ChannelData::setInviteLink] is declared in
    data/data_channel.h, which is not part of the file; "the channel's
    invite link is set to the returned link". *)
Definition setInviteLink (link : string) (ch : ChannelData) : ChannelData :=
  {| call := call ch;
     canManageCall := canManageCall ch;
     hasUsername := hasUsername ch;
     username := username ch;
     inviteLink := link;
     canHaveInviteLink := canHaveInviteLink ch;
     input := input ch |}.

(** [QString::isEmpty]. *)
Definition isEmpty (s : string) : bool :=
  match s with
  | EmptyString => true
  | String _ _ => false
  end.

(** ** What the box shows *)

Inductive LangKey : Type :=
| lng_group_call_new_muted
| lng_group_call_speakers
| lng_group_call_microphone
| lng_group_call_share
| lng_group_call_end
| lng_group_call_settings_title
| lng_box_done
| lng_create_channel_link_copied.

Inductive ButtonStyle : Type :=
| settingsButton
| settingsAttentionButton.

(** Which of the two name streams a device picker callback fires. *)
Inductive Picker : Type :=
| SpeakersPicker
| MicrophonePicker.

(** The boxes handed to [box->getDelegate()->show]. *)
Inductive ShownBox : Type :=
| ChooseAudioInputBox (callback : Picker)
| LeaveGroupCallBox (discard : bool).

(** The rows of the vertical layout, in the order they are added. *)
Inductive Row : Type :=
| Checkbox (text : LangKey) (checked : bool)
| Skip
| ButtonWithLabel (text : LangKey) (label : string)
| LevelMeter
| Button (text : LangKey) (st : ButtonStyle).

(** ** The application objects the box reaches through its pointers *)

Record World : Type := mkWorld {
  channel : ChannelData;          (* the object behind [channel] *)
  weakCall : bool;                (* is the Calls::GroupCall still alive *)
  sent : list MTPRequest;         (* requests given to session().api() *)
  awaiting : nat;                 (* ExportChatInvite requests not answered *)
  clipboard : string;             (* QGuiApplication::clipboard() *)
  toasts : list LangKey;          (* Ui::Toast::Show calls *)
  shown : list ShownBox;          (* boxes shown through the delegate *)
  callInputDeviceId : string;     (* Core::App().settings() *)
  CurrentAudioOutputName : string;
  CurrentAudioInputName : string
}.

Definition onChannel (f : ChannelData -> ChannelData) (w : World) : World :=
  {| channel := f (channel w); weakCall := weakCall w; sent := sent w;
     awaiting := awaiting w; clipboard := clipboard w; toasts := toasts w;
     shown := shown w; callInputDeviceId := callInputDeviceId w;
     CurrentAudioOutputName := CurrentAudioOutputName w;
     CurrentAudioInputName := CurrentAudioInputName w |}.

Definition api_request (r : MTPRequest) (w : World) : World :=
  {| channel := channel w; weakCall := weakCall w; sent := sent w ++ [r];
     awaiting := awaiting w; clipboard := clipboard w; toasts := toasts w;
     shown := shown w; callInputDeviceId := callInputDeviceId w;
     CurrentAudioOutputName := CurrentAudioOutputName w;
     CurrentAudioInputName := CurrentAudioInputName w |}.

Definition setClipboardText (text : string) (w : World) : World :=
  {| channel := channel w; weakCall := weakCall w; sent := sent w;
     awaiting := awaiting w; clipboard := text; toasts := toasts w;
     shown := shown w; callInputDeviceId := callInputDeviceId w;
     CurrentAudioOutputName := CurrentAudioOutputName w;
     CurrentAudioInputName := CurrentAudioInputName w |}.

Definition Toast_Show (text : LangKey) (w : World) : World :=
  {| channel := channel w; weakCall := weakCall w; sent := sent w;
     awaiting := awaiting w; clipboard := clipboard w;
     toasts := toasts w ++ [text];
     shown := shown w; callInputDeviceId := callInputDeviceId w;
     CurrentAudioOutputName := CurrentAudioOutputName w;
     CurrentAudioInputName := CurrentAudioInputName w |}.

Definition show (b : ShownBox) (w : World) : World :=
  {| channel := channel w; weakCall := weakCall w; sent := sent w;
     awaiting := awaiting w; clipboard := clipboard w; toasts := toasts w;
     shown := shown w ++ [b]; callInputDeviceId := callInputDeviceId w;
     CurrentAudioOutputName := CurrentAudioOutputName w;
     CurrentAudioInputName := CurrentAudioInputName w |}.

Definition setAwaiting (n : nat) (w : World) : World :=
  {| channel := channel w; weakCall := weakCall w; sent := sent w;
     awaiting := n; clipboard := clipboard w; toasts := toasts w;
     shown := shown w; callInputDeviceId := callInputDeviceId w;
     CurrentAudioOutputName := CurrentAudioOutputName w;
     CurrentAudioInputName := CurrentAudioInputName w |}.

Definition destroyCall (w : World) : World :=
  {| channel := channel w; weakCall := false; sent := sent w;
     awaiting := awaiting w; clipboard := clipboard w; toasts := toasts w;
     shown := shown w; callInputDeviceId := callInputDeviceId w;
     CurrentAudioOutputName := CurrentAudioOutputName w;
     CurrentAudioInputName := CurrentAudioInputName w |}.

(** ** [SaveCallJoinMuted] *)

Definition SaveCallJoinMuted (callId : Z) (muted : bool) : M World unit :=
  ch <- gets channel ;;
  match call ch with
  | None => ret tt
  | Some c =>
      if negb (Data.id c =? callId)
         || negb (canManageCall ch)
         || negb (Data.canChangeJoinMuted c)
         || Bool.eqb (Data.joinMuted c) muted
      then ret tt
      else
        modify (onChannel (withCall (Some (Data.setJoinMutedLocally muted c)))) ;;
        modify (api_request
                  (MTPphone_ToggleGroupCallSettings
                     (MTP_flags f_join_muted) (Data.input c) (MTP_bool muted)))
  end.

(** ** The box *)

Section SettingsBox.

(** [float] levels are only stored and handed on, never computed with. *)
Context {Level : Type}.
Variable zeroLevel : Level.

(** [Main::Session::createInternalLinkFull], declared in
    main/main_session.h. *)
Variable createInternalLinkFull : string -> string.

(** The two [crl::time] constants, defined outside the file. *)
Variable kMicTestUpdateInterval : Z.
Variable kMicTestAnimationDuration : Z.

(** [Webrtc::AudioInputTester]: the device it listens to, and how many
    times its level was taken with [getAndResetLevel]. *)
Record AudioInputTester : Type := mkAudioInputTester {
  deviceId : string;
  levelReads : nat
}.

(** [Ui::Animations::Simple] once started; its callback is the lambda that
    sets the value of [micTestLevel]. *)
Record Animation : Type := mkAnimation {
  from : Level;
  to : Level;
  duration : Z
}.

(** [base::Timer]: the period given to [callEach] and whether a callback
    has been set. *)
Record Timer : Type := mkTimer {
  callEach : option Z;
  hasCallback : bool
}.

(** [struct State].  A stream is the list of the values fired on it, the
    level meter is the value it displays. *)
Record State : Type := mkState {
  outputNameStream : list string;
  inputNameStream : list string;
  micTester : AudioInputTester;
  micTestLevel : Level;
  micLevel : Level;
  micLevelAnimation : option Animation;
  levelUpdateTimer : Timer;
  generatingLink : bool
}.

(** The box: what it shows, its [State], and the constants its lambdas
    captured by value.  [muteJoined] is the checkbox with its checked
    state, [None] for [nullptr]. *)
Record Box : Type := mkBox {
  weakBox : bool;
  title : option LangKey;
  rows : list Row;
  buttons : list LangKey;
  state : State;
  id : Z;
  joinMuted : bool;
  canChangeJoinMuted : bool;
  muteJoined : option bool
}.

Record App : Type := mkApp {
  world : World;
  box : Box
}.

Definition onWorld (f : World -> World) (a : App) : App :=
  {| world := f (world a); box := box a |}.

Definition onBox (f : Box -> Box) (a : App) : App :=
  {| world := world a; box := f (box a) |}.

Definition onState (f : State -> State) (b : Box) : Box :=
  {| weakBox := weakBox b; title := title b; rows := rows b;
     buttons := buttons b; state := f (state b); id := id b;
     joinMuted := joinMuted b; canChangeJoinMuted := canChangeJoinMuted b;
     muteJoined := muteJoined b |}.

Definition destroyBox (b : Box) : Box :=
  {| weakBox := false; title := title b; rows := rows b;
     buttons := buttons b; state := state b; id := id b;
     joinMuted := joinMuted b; canChangeJoinMuted := canChangeJoinMuted b;
     muteJoined := muteJoined b |}.

Definition setChecked (checked : option bool) (b : Box) : Box :=
  {| weakBox := weakBox b; title := title b; rows := rows b;
     buttons := buttons b; state := state b; id := id b;
     joinMuted := joinMuted b; canChangeJoinMuted := canChangeJoinMuted b;
     muteJoined := checked |}.

(** Running a program over the world inside the application. *)
Definition inWorld {A : Type} (m : M World A) : M App A :=
  fun a => (fst (m (world a)), onWorld (fun _ => snd (m (world a))) a).

(** *** Assignments to the fields of [State] *)

Definition fireOutputName (name : string) (s : State) : State :=
  {| outputNameStream := outputNameStream s ++ [name];
     inputNameStream := inputNameStream s; micTester := micTester s;
     micTestLevel := micTestLevel s; micLevel := micLevel s;
     micLevelAnimation := micLevelAnimation s;
     levelUpdateTimer := levelUpdateTimer s;
     generatingLink := generatingLink s |}.

Definition fireInputName (name : string) (s : State) : State :=
  {| outputNameStream := outputNameStream s;
     inputNameStream := inputNameStream s ++ [name];
     micTester := micTester s;
     micTestLevel := micTestLevel s; micLevel := micLevel s;
     micLevelAnimation := micLevelAnimation s;
     levelUpdateTimer := levelUpdateTimer s;
     generatingLink := generatingLink s |}.

Definition onMicTester (f : AudioInputTester -> AudioInputTester)
    (s : State) : State :=
  {| outputNameStream := outputNameStream s;
     inputNameStream := inputNameStream s; micTester := f (micTester s);
     micTestLevel := micTestLevel s; micLevel := micLevel s;
     micLevelAnimation := micLevelAnimation s;
     levelUpdateTimer := levelUpdateTimer s;
     generatingLink := generatingLink s |}.

Definition setValue (v : Level) (s : State) : State :=
  {| outputNameStream := outputNameStream s;
     inputNameStream := inputNameStream s; micTester := micTester s;
     micTestLevel := v; micLevel := micLevel s;
     micLevelAnimation := micLevelAnimation s;
     levelUpdateTimer := levelUpdateTimer s;
     generatingLink := generatingLink s |}.

Definition setMicLevel (v : Level) (s : State) : State :=
  {| outputNameStream := outputNameStream s;
     inputNameStream := inputNameStream s; micTester := micTester s;
     micTestLevel := micTestLevel s; micLevel := v;
     micLevelAnimation := micLevelAnimation s;
     levelUpdateTimer := levelUpdateTimer s;
     generatingLink := generatingLink s |}.

Definition startAnimation (a : Animation) (s : State) : State :=
  {| outputNameStream := outputNameStream s;
     inputNameStream := inputNameStream s; micTester := micTester s;
     micTestLevel := micTestLevel s; micLevel := micLevel s;
     micLevelAnimation := Some a;
     levelUpdateTimer := levelUpdateTimer s;
     generatingLink := generatingLink s |}.

Definition setGeneratingLink (g : bool) (s : State) : State :=
  {| outputNameStream := outputNameStream s;
     inputNameStream := inputNameStream s; micTester := micTester s;
     micTestLevel := micTestLevel s; micLevel := micLevel s;
     micLevelAnimation := micLevelAnimation s;
     levelUpdateTimer := levelUpdateTimer s;
     generatingLink := g |}.

Definition setDeviceId (device : string) (t : AudioInputTester)
  : AudioInputTester :=
  {| deviceId := device; levelReads := levelReads t |}.

(** [getAndResetLevel] returns what the audio subsystem measured; the
    value comes with the timer event, the tester counts the read. *)
Definition getAndResetLevel (t : AudioInputTester) : AudioInputTester :=
  {| deviceId := deviceId t; levelReads := S (levelReads t) |}.

(** The text a [ButtonWithLabel] shows: [rpl::single(current)] followed by
    the events of the stream. *)
Definition displayedName (current : string) (stream : list string)
  : string :=
  last stream current.

(** *** The lambdas of [GroupCallSettingsBox] *)

Definition lookupLink (ch : ChannelData) : string :=
  if hasUsername ch
  then createInternalLinkFull (username ch)
  else inviteLink ch.

Definition copyLink : M App bool :=
  link <- gets (fun a => lookupLink (channel (world a))) ;;
  if isEmpty link then ret false
  else
    modify (onWorld (setClipboardText link)) ;;
    alive <- gets (fun a => weakBox (box a)) ;;
    (if alive
     then modify (onWorld (Toast_Show lng_create_channel_link_copied))
     else ret tt) ;;
    ret true.

(** The [done] handler of the ExportChatInvite request. *)
Definition exportChatInviteDone (result : MTPExportedChatInvite)
  : M App unit :=
  match result with
  | chatInviteExported vlink =>
      modify (onWorld (onChannel (setInviteLink vlink))) ;;
      _ <- copyLink ;;
      ret tt
  | chatInviteEmpty => ret tt
  end.

(** The click handler of the share button. *)
Definition shareClicked : M App unit :=
  copied <- copyLink ;;
  generating <- gets (fun a => generatingLink (state (box a))) ;;
  if negb copied && negb generating
  then
    modify (onBox (onState (setGeneratingLink true))) ;;
    peer <- gets (fun a => input (channel (world a))) ;;
    modify (onWorld (api_request (MTPmessages_ExportChatInvite peer))) ;;
    modify (onWorld (fun w => setAwaiting (S (awaiting w)) w))
  else ret tt.

(** The callbacks given to the two device pickers, before [crl::guard]. *)
Definition speakersChosen (device name : string) : M App unit :=
  modify (onBox (onState (fireOutputName name))).

Definition microphoneChosen (device name : string) : M App unit :=
  modify (onBox (onState (fireInputName name))) ;;
  modify (onBox (onState (onMicTester (setDeviceId device)))).

(** [crl::guard(box, callback)]: the callback runs only while the box
    lives. *)
Definition crl_guard (callback : M App unit) : M App unit :=
  alive <- gets (fun a => weakBox (box a)) ;;
  if alive then callback else ret tt.

(** The callback of [levelUpdateTimer]; [level] is what
    [getAndResetLevel] returns. *)
Definition levelUpdate (level : Level) : M App unit :=
  was <- gets (fun a => micLevel (state (box a))) ;;
  modify (onBox (onState (onMicTester getAndResetLevel))) ;;
  modify (onBox (onState (setMicLevel level))) ;;
  now <- gets (fun a => micLevel (state (box a))) ;;
  modify (onBox (onState (startAnimation
    {| from := was; to := now; duration := kMicTestAnimationDuration |}))).

(** The callback of [micLevelAnimation]; [current] is the value of a
    running animation, [None] once it has finished, when
    [micLevelAnimation.value(micLevel)] is [micLevel]. *)
Definition levelAnimationFrame (current : option Level) : M App unit :=
  final <- gets (fun a => micLevel (state (box a))) ;;
  modify (onBox (onState (setValue
    match current with
    | Some v => v
    | None => final
    end))).

(** The subscriber of [box->boxClosing()]. *)
Definition boxClosing : M App unit :=
  b <- gets box ;;
  if canChangeJoinMuted b
  then
    match muteJoined b with
    | Some checked =>
        if negb (Bool.eqb checked (joinMuted b))
        then inWorld (SaveCallJoinMuted (id b) checked)
        else ret tt
    | None => ret tt
    end
  else ret tt.

(** Modelled from the spec: [Ui::GenericBox::closeBox] belongs to the
    widget toolkit; closing the dialog fires [boxClosing] and the box is
    destroyed, with its [State]. *)
Definition closeBox : M App unit :=
  boxClosing ;;
  modify (onBox destroyBox).

(** The click handler of the end-call button. *)
Definition endClicked : M App unit :=
  alive <- gets (fun a => weakCall (world a)) ;;
  if alive
  then
    modify (onWorld (show (LeaveGroupCallBox true))) ;;
    closeBox
  else ret tt.

(** The click handler of the Done button. *)
Definition doneClicked : M App unit :=
  closeBox.

(** *** [GroupCallSettingsBox]: what the function builds *)

Definition addRow (r : Row) (layout : list Row) : list Row := layout ++ [r].

Definition AddSkip (layout : list Row) : list Row := addRow Skip layout.

Definition AddButtonWithLabel (text : LangKey) (label : string)
    (layout : list Row) : list Row :=
  addRow (ButtonWithLabel text label) layout.

Definition AddButton (text : LangKey) (st : ButtonStyle)
    (layout : list Row) : list Row :=
  addRow (Button text st) layout.

(** [goodReal]: the channel's current call is the call of the box. *)
Definition goodReal (ch : ChannelData) (call_id : Z) : bool :=
  match call ch with
  | Some real => Data.id real =? call_id
  | None => false
  end.

(** The box the function fills for the call [call_id] of the channel of
    [w]; [call->channel()] is the channel of the world. *)
Definition GroupCallSettingsBox (w : World) (call_id : Z) : Box :=
  let channel := channel w in
  let real := call channel in
  let id := call_id in
  let goodReal := goodReal channel id in
  let joinMuted :=
    if goodReal
    then match real with Some r => Data.joinMuted r | None => false end
    else false in
  let canChangeJoinMuted :=
    goodReal
    && match real with Some r => Data.canChangeJoinMuted r | None => false end in
  let muteJoined :=
    if canManageCall channel && canChangeJoinMuted
    then Some joinMuted
    else None in
  let layout0 :=
    match muteJoined with
    | Some checked => AddSkip (addRow (Checkbox lng_group_call_new_muted checked) [])
    | None => []
    end in
  let layout1 :=
    AddButtonWithLabel lng_group_call_speakers (CurrentAudioOutputName w)
      layout0 in
  let layout2 :=
    AddButtonWithLabel lng_group_call_microphone (CurrentAudioInputName w)
      layout1 in
  let layout3 := AddSkip (addRow LevelMeter layout2) in
  let layout4 :=
    if negb (isEmpty (lookupLink channel)) || canHaveInviteLink channel
    then AddButton lng_group_call_share settingsButton layout3
    else layout3 in
  let layout5 :=
    if canManageCall channel
    then AddButton lng_group_call_end settingsAttentionButton layout4
    else layout4 in
  {| weakBox := true;
     title := Some lng_group_call_settings_title;
     rows := layout5;
     buttons := [lng_box_done];
     state :=
       {| outputNameStream := [];
          inputNameStream := [];
          micTester :=
            {| deviceId := callInputDeviceId w; levelReads := 0 |};
          micTestLevel := zeroLevel;
          micLevel := zeroLevel;
          micLevelAnimation := None;
          levelUpdateTimer :=
            {| callEach := Some kMicTestUpdateInterval;
               hasCallback := true |};
          generatingLink := false |};
     id := id;
     joinMuted := joinMuted;
     canChangeJoinMuted := canChangeJoinMuted;
     muteJoined := muteJoined |}.

(** The application once the box is shown. *)
Definition opened (w : World) (call_id : Z) : App :=
  {| world := w; box := GroupCallSettingsBox w call_id |}.

(** *** What can happen to a shown box *)

Inductive Event : Type :=
| SpeakersClicked
| MicrophoneClicked
| DeviceChosen (picker : Picker) (device name : string)
| LevelUpdateTimer (level : Level)
| LevelAnimationFrame (current : option Level)
| ShareClicked
| ExportChatInviteDone (result : MTPExportedChatInvite)
| ExportChatInviteFail
| EndClicked
| DoneClicked
| BoxClosed
| MuteJoinedClicked
| ChannelUpdated (ch : ChannelData)
| CallDestroyed.

Definition isButton (text : LangKey) (r : Row) : bool :=
  match r, text with
  | Button lng_group_call_share _, lng_group_call_share => true
  | Button lng_group_call_end _, lng_group_call_end => true
  | _, _ => false
  end.

Definition isPicker (p : Picker) (b : ShownBox) : bool :=
  match b, p with
  | ChooseAudioInputBox SpeakersPicker, SpeakersPicker => true
  | ChooseAudioInputBox MicrophonePicker, MicrophonePicker => true
  | _, _ => false
  end.

(** Widgets and the timer of the box are there while the box lives. *)
Definition whileShown (m : M App unit) : M App unit :=
  alive <- gets (fun a => weakBox (box a)) ;;
  if alive then m else ret tt.

Definition ifButton (text : LangKey) (m : M App unit) : M App unit :=
  layout <- gets (fun a => rows (box a)) ;;
  if existsb (isButton text) layout then m else ret tt.

Definition ifPickerShown (p : Picker) (m : M App unit) : M App unit :=
  boxes <- gets (fun a => shown (world a)) ;;
  if existsb (isPicker p) boxes then m else ret tt.

(** An answer reaches a [done] handler only for a request that waits. *)
Definition ifAwaiting (m : M App unit) : M App unit :=
  n <- gets (fun a => awaiting (world a)) ;;
  match n with
  | O => ret tt
  | S n' => modify (onWorld (setAwaiting n')) ;; m
  end.

Definition timerRuns (t : Timer) : bool :=
  match callEach t with
  | Some _ => hasCallback t
  | None => false
  end.

Definition handle (ev : Event) : M App unit :=
  match ev with
  | SpeakersClicked =>
      whileShown
        (modify (onWorld (show (ChooseAudioInputBox SpeakersPicker))))
  | MicrophoneClicked =>
      whileShown
        (modify (onWorld (show (ChooseAudioInputBox MicrophonePicker))))
  | DeviceChosen SpeakersPicker device name =>
      ifPickerShown SpeakersPicker (crl_guard (speakersChosen device name))
  | DeviceChosen MicrophonePicker device name =>
      ifPickerShown MicrophonePicker
        (crl_guard (microphoneChosen device name))
  | LevelUpdateTimer level =>
      whileShown
        (t <- gets (fun a => levelUpdateTimer (state (box a))) ;;
         if timerRuns t then levelUpdate level else ret tt)
  | LevelAnimationFrame current =>
      whileShown
        (anim <- gets (fun a => micLevelAnimation (state (box a))) ;;
         match anim with
         | Some _ => levelAnimationFrame current
         | None => ret tt
         end)
  | ShareClicked => whileShown (ifButton lng_group_call_share shareClicked)
  | ExportChatInviteDone result => ifAwaiting (exportChatInviteDone result)
  | ExportChatInviteFail => ifAwaiting (ret tt)
  | EndClicked => whileShown (ifButton lng_group_call_end endClicked)
  | DoneClicked => whileShown doneClicked
  | BoxClosed => whileShown closeBox
  | MuteJoinedClicked =>
      whileShown
        (modify (onBox (fun b => setChecked (option_map negb (muteJoined b)) b)))
  | ChannelUpdated ch => modify (onWorld (onChannel (fun _ => ch)))
  | CallDestroyed => modify (onWorld destroyCall)
  end.

Definition step (a : App) (ev : Event) : App := exec (handle ev) a.

Definition run (a : App) (evs : list Event) : App := fold_left step evs a.

(** The level taken at the last firing of the timer in a history of
    events, [zeroLevel] when it has not fired: [float micLevel = 0.]. *)
Definition lastLevel (evs : list Event) : Level :=
  fold_left
    (fun acc ev => match ev with LevelUpdateTimer level => level | _ => acc end)
    evs zeroLevel.

Definition timerFirings (evs : list Event) : nat :=
  List.length
    (filter
       (fun ev => match ev with LevelUpdateTimer _ => true | _ => false end)
       evs).

(** The ExportChatInvite requests and the ToggleGroupCallSettings
    requests among the requests sent. *)
Definition exports (l : list MTPRequest) : nat :=
  List.length (filter isExportChatInvite l).

Definition toggles (l : list MTPRequest) : list MTPRequest :=
  filter isToggleGroupCallSettings l.

(** The [LeaveGroupCallBox] boxes among the boxes shown. *)
Definition leaveBoxes (l : list ShownBox) : nat :=
  List.length
    (filter
       (fun b => match b with LeaveGroupCallBox _ => true | _ => false end)
       l).

(** The events in which a microphone is chosen. *)
Definition isMicrophoneChosen (ev : Event) : bool :=
  match ev with
  | DeviceChosen MicrophonePicker _ _ => true
  | _ => false
  end.

(** *** Sample inputs *)

(** A call the user manages, in a private channel without invite link. *)
Definition sampleCall : Data.GroupCall :=
  {| Data.id := 7; Data.joinMuted := false;
     Data.canChangeJoinMuted := true; Data.input := 70 |}.

Definition sampleChannel : ChannelData :=
  {| call := Some sampleCall; canManageCall := true; hasUsername := false;
     username := EmptyString; inviteLink := EmptyString;
     canHaveInviteLink := true; input := 1 |}.

Definition worldOf (ch : ChannelData) : World :=
  {| channel := ch; weakCall := true; sent := []; awaiting := 0;
     clipboard := "old"%string; toasts := []; shown := [];
     callInputDeviceId := "default"%string;
     CurrentAudioOutputName := "Speakers"%string;
     CurrentAudioInputName := "Microphone"%string |}.

Definition sampleWorld : World := worldOf sampleChannel.

(** A participant who cannot manage the call, in a channel that has no
    link and cannot have one. *)
Definition memberChannel : ChannelData :=
  {| call := Some sampleCall; canManageCall := false; hasUsername := false;
     username := EmptyString; inviteLink := EmptyString;
     canHaveInviteLink := false; input := 1 |}.

(** A public channel. *)
Definition publicChannel : ChannelData :=
  {| call := Some sampleCall; canManageCall := true; hasUsername := true;
     username := "durov"%string; inviteLink := "https://t.me/joinchat/AAA"%string;
     canHaveInviteLink := true; input := 1 |}.

Definition sampleInternalLink (query : string) : string :=
  ("https://t.me/" ++ query)%string.

(** ** Properties *)

Ltac unfold_prog :=
  unfold step, exec, retval, handle, whileShown, ifButton, ifPickerShown,
    ifAwaiting, crl_guard, doneClicked, endClicked, closeBox, boxClosing,
    levelAnimationFrame, levelUpdate, microphoneChosen, speakersChosen,
    shareClicked, exportChatInviteDone, copyLink, inWorld,
    SaveCallJoinMuted, bind, gets, modify, ret in *.

Ltac break_match :=
  repeat match goal with
  | |- context [match ?x with _ => _ end] =>
      match type of x with
      | _ => is_var x; destruct x
      | _ => let E := fresh "E" in destruct x eqn:E
      end; cbn [fst snd] in *
  end.

Lemma isEmpty_true (s : string) : isEmpty s = true <-> s = EmptyString.
Proof. destruct s; cbn; split; congruence. Qed.

Lemma isEmpty_false (s : string) : isEmpty s = false <-> s <> EmptyString.
Proof. destruct s; cbn; split; congruence. Qed.

(** The early return of [SaveCallJoinMuted], as a proposition. *)
Lemma save_guard_true (ch : ChannelData) (c : Data.GroupCall)
    (callId : Z) (muted : bool) :
  negb (Data.id c =? callId)
  || negb (canManageCall ch)
  || negb (Data.canChangeJoinMuted c)
  || Bool.eqb (Data.joinMuted c) muted = true
  <-> (Data.id c <> callId
       \/ canManageCall ch = false
       \/ Data.canChangeJoinMuted c = false
       \/ Data.joinMuted c = muted).
Proof.
  rewrite !orb_true_iff, !negb_true_iff, Z.eqb_neq, Bool.eqb_true_iff.
  tauto.
Qed.

(** C1. [SaveCallJoinMuted] returns with nothing changed and nothing sent
    when the channel has no call, the call has another id, the user cannot
    manage the call, join-muted cannot be changed, or it already has the
    wanted value; otherwise it sets join-muted locally on the call and
    sends exactly one ToggleGroupCallSettings request carrying the flag
    [f_join_muted] and the wanted value. *)
Theorem SaveCallJoinMuted_guarded_update
    (w : World) (callId : Z) (muted : bool) :
  let refused :=
    call (channel w) = None
    \/ exists c, call (channel w) = Some c
         /\ (Data.id c <> callId
             \/ canManageCall (channel w) = false
             \/ Data.canChangeJoinMuted c = false
             \/ Data.joinMuted c = muted) in
  let w' := exec (SaveCallJoinMuted callId muted) w in
  (refused -> SaveCallJoinMuted callId muted w = (tt, w))
  /\ (~ refused ->
      exists c,
        call (channel w) = Some c
        /\ w' = api_request
                  (MTPphone_ToggleGroupCallSettings
                     [f_join_muted] (Data.input c) muted)
                  (onChannel
                     (withCall (Some (Data.setJoinMutedLocally muted c))) w)
        /\ call (channel w')
           = Some {| Data.id := Data.id c; Data.joinMuted := muted;
                     Data.canChangeJoinMuted := Data.canChangeJoinMuted c;
                     Data.input := Data.input c |}
        /\ sent w'
           = sent w
             ++ [MTPphone_ToggleGroupCallSettings
                   [f_join_muted] (Data.input c) muted]).
Proof.
  cbv zeta. unfold SaveCallJoinMuted, bind, gets, exec. cbn [fst snd].
  split.
  - intros [Hnone | (c & Hc & Hguard)].
    + rewrite Hnone. reflexivity.
    + rewrite Hc. apply save_guard_true in Hguard. rewrite Hguard.
      reflexivity.
  - intros Hnot.
    destruct (call (channel w)) as [c |] eqn:Hc.
    2:{ exfalso. apply Hnot. left. reflexivity. }
    exists c. split; [reflexivity |].
    destruct (negb (Data.id c =? callId)
              || negb (canManageCall (channel w))
              || negb (Data.canChangeJoinMuted c)
              || Bool.eqb (Data.joinMuted c) muted) eqn:Hb.
    + exfalso. apply Hnot. right. exists c. split; [reflexivity |].
      apply save_guard_true. exact Hb.
    + cbn. repeat split; reflexivity.
Qed.

(** C9. [lookupLink] prefers the public link.  For a channel with a
    username it is the internal link built from the username, whatever
    invite link is stored; for a channel without a username it is the
    stored invite link. *)
Theorem lookupLink_prefers_public_link (ch : ChannelData) :
  (hasUsername ch = true ->
   lookupLink ch = createInternalLinkFull (username ch)
   /\ forall stored,
       lookupLink (setInviteLink stored ch)
       = createInternalLinkFull (username ch))
  /\ (hasUsername ch = false ->
      lookupLink ch = inviteLink ch
      /\ forall stored, lookupLink (setInviteLink stored ch) = stored).
Proof.
  unfold lookupLink. cbn [setInviteLink hasUsername username inviteLink].
  split; intros ->; split; reflexivity.
Qed.

(** C4. [copyLink] returns false and changes nothing, the clipboard
    included, when [lookupLink] gives an empty string.  When it gives a
    link that is not empty, the clipboard text becomes that link, the
    link-copied toast is shown exactly when the box is alive, nothing else
    changes, and [copyLink] returns true. *)
Theorem copyLink_clipboard_and_toast (a : App) :
  let link := lookupLink (channel (world a)) in
  let a' := exec copyLink a in
  (link = EmptyString -> copyLink a = (false, a))
  /\ (link <> EmptyString ->
      retval copyLink a = true
      /\ clipboard (world a') = link
      /\ toasts (world a')
         = (if weakBox (box a)
            then toasts (world a) ++ [lng_create_channel_link_copied]
            else toasts (world a))
      /\ channel (world a') = channel (world a)
      /\ sent (world a') = sent (world a)
      /\ box a' = box a).
Proof.
  cbv zeta. unfold copyLink, exec, retval, bind, gets, modify, ret.
  cbn [fst snd]. split.
  - intros Hlink. apply isEmpty_true in Hlink. rewrite Hlink. reflexivity.
  - intros Hlink. apply isEmpty_false in Hlink. rewrite Hlink.
    destruct a as [w b]. cbn. destruct (weakBox b); cbn; repeat split.
Qed.

(** C6. A device chosen in the microphone picker updates the displayed
    microphone name and sets the device of the mic tester; a device chosen
    in the speakers picker updates only the displayed speakers name and
    leaves the mic tester as it was.  The guarded callbacks that the
    pickers receive do just this while the box is alive. *)
Theorem picker_callbacks_update_names (a : App) (device name : string) :
  let m := exec (microphoneChosen device name) a in
  let s := exec (speakersChosen device name) a in
  (displayedName (CurrentAudioInputName (world a))
     (inputNameStream (state (box m))) = name
   /\ deviceId (micTester (state (box m))) = device
   /\ outputNameStream (state (box m)) = outputNameStream (state (box a))
   /\ world m = world a)
  /\ (displayedName (CurrentAudioOutputName (world a))
        (outputNameStream (state (box s))) = name
      /\ micTester (state (box s)) = micTester (state (box a))
      /\ s = onBox (onState (fireOutputName name)) a)
  /\ (weakBox (box a) = true ->
      (existsb (isPicker MicrophonePicker) (shown (world a)) = true ->
       step a (DeviceChosen MicrophonePicker device name) = m)
      /\ (existsb (isPicker SpeakersPicker) (shown (world a)) = true ->
          step a (DeviceChosen SpeakersPicker device name) = s)).
Proof.
  cbv zeta. destruct a as [w b]. unfold_prog. cbn.
  unfold displayedName. rewrite !last_last.
  split; [| split].
  - repeat split.
  - repeat split.
  - intros Halive. split; intros ->; cbn; rewrite Halive; reflexivity.
Qed.

(** The subscriber of [boxClosing] calls [SaveCallJoinMuted], with the
    call id of the box and the checked state of the checkbox, if and only
    if join-muted could be changed when the box was built, the mute-joined
    checkbox exists and its checked state differs from the join-muted
    value taken when the box was built; otherwise closing the box leaves
    the world as it was.  Whether the call saves anything is up to the
    guard of [SaveCallJoinMuted]. *)
Lemma boxClosing_saves_iff_changed (a : App) :
  let b := box a in
  let changed :=
    canChangeJoinMuted b = true
    /\ exists checked,
         muteJoined b = Some checked /\ checked <> joinMuted b in
  (changed ->
   exists checked,
     muteJoined b = Some checked
     /\ boxClosing a = inWorld (SaveCallJoinMuted (id b) checked) a)
  /\ (~ changed ->
      boxClosing a = (tt, a)
      /\ world (step a DoneClicked) = world a
      /\ world (step a BoxClosed) = world a)
  /\ (weakBox b = true ->
      step a DoneClicked = onBox destroyBox (exec boxClosing a)
      /\ step a BoxClosed = onBox destroyBox (exec boxClosing a)).
Proof.
  cbv zeta. destruct a as [w b].
  unfold step, handle, whileShown, doneClicked, closeBox, boxClosing,
    exec, bind, gets, modify, ret.
  cbn [fst snd box world]. split; [| split].
  - intros (Hcan & checked & Hsome & Hneq).
    exists checked. split; [exact Hsome |].
    rewrite Hcan, Hsome.
    destruct (Bool.eqb checked (joinMuted b)) eqn:He.
    + apply Bool.eqb_prop in He. contradiction.
    + reflexivity.
  - intros Hnot.
    assert (Hskip :
      (if canChangeJoinMuted b
       then match muteJoined b with
            | Some checked =>
                if negb (Bool.eqb checked (joinMuted b))
                then inWorld (SaveCallJoinMuted (id b) checked)
                else fun s : App => (tt, s)
            | None => fun s : App => (tt, s)
            end
       else fun s : App => (tt, s)) {| world := w; box := b |}
      = (tt, {| world := w; box := b |})).
    { destruct (canChangeJoinMuted b) eqn:Hcan; [| reflexivity].
      destruct (muteJoined b) as [checked |] eqn:Hsome; [| reflexivity].
      destruct (Bool.eqb checked (joinMuted b)) eqn:He; [reflexivity |].
      exfalso. apply Hnot. split; [reflexivity |].
      exists checked. split; [reflexivity |].
      intros Heq. rewrite Heq, Bool.eqb_reflx in He. discriminate. }
    rewrite Hskip. cbn. destruct (weakBox b); cbn; rewrite ?Hskip; repeat split.
  - intros ->. cbn. split; reflexivity.
Qed.

(** A box closed while the channel is as it was when the box was built
    sends the request whenever the checkbox was changed: the guard of
    [SaveCallJoinMuted] holds what the box found when it was built. *)
Lemma changed_checkbox_is_sent (w : World) (call_id : Z) :
  let a := step (opened w call_id) MuteJoinedClicked in
  muteJoined (box (opened w call_id)) <> None ->
  exists real,
    call (channel w) = Some real
    /\ sent (world (step a DoneClicked))
       = sent w
         ++ [MTPphone_ToggleGroupCallSettings
               [f_join_muted] (Data.input real)
               (negb (Data.joinMuted real))].
Proof.
  cbv zeta.
  destruct w as [ch wc sn aw cl ts sh dev outn inn].
  destruct ch as [[real |] cm hu un il chl inp].
  2:{ unfold opened, GroupCallSettingsBox, goodReal. cbn.
      rewrite andb_false_r. congruence. }
  destruct cm.
  2:{ unfold opened, GroupCallSettingsBox. cbn. congruence. }
  destruct (Data.id real =? call_id) eqn:Hid.
  2:{ unfold opened, GroupCallSettingsBox, goodReal. cbn. rewrite Hid.
      cbn. congruence. }
  destruct (Data.canChangeJoinMuted real) eqn:Hcan.
  2:{ unfold opened, GroupCallSettingsBox, goodReal. cbn. rewrite Hid, Hcan.
      cbn. congruence. }
  intros _. exists real. split; [reflexivity |].
  unfold opened, GroupCallSettingsBox, goodReal. unfold_prog. cbn.
  rewrite Hid, Hcan. cbn.
  destruct (Data.joinMuted real) eqn:Hjm; cbn; rewrite Hid, Hcan, Hjm; cbn;
    reflexivity.
Qed.

(** The rows of the box in the order they are added. *)
Lemma GroupCallSettingsBox_rows (w : World) (call_id : Z) :
  rows (GroupCallSettingsBox w call_id)
  = match muteJoined (GroupCallSettingsBox w call_id) with
    | Some checked => [Checkbox lng_group_call_new_muted checked; Skip]
    | None => []
    end
    ++ [ButtonWithLabel lng_group_call_speakers (CurrentAudioOutputName w);
        ButtonWithLabel lng_group_call_microphone (CurrentAudioInputName w);
        LevelMeter; Skip]
    ++ (if negb (isEmpty (lookupLink (channel w)))
           || canHaveInviteLink (channel w)
        then [Button lng_group_call_share settingsButton]
        else [])
    ++ (if canManageCall (channel w)
        then [Button lng_group_call_end settingsAttentionButton]
        else []).
Proof.
  unfold GroupCallSettingsBox. cbn [rows muteJoined].
  unfold AddButton, AddButtonWithLabel, AddSkip, addRow.
  destruct (canManageCall (channel w) && _);
    destruct (negb (isEmpty (lookupLink (channel w)))
              || canHaveInviteLink (channel w));
    destruct (canManageCall (channel w)); reflexivity.
Qed.

(** C7, amended.  For every call the box has the level meter and the two
    device pickers.  It has the invite-link sharing button exactly when a
    link can be looked up or the channel can have an invite link, and the
    end-call button exactly when the user can manage the call. *)
Theorem GroupCallSettingsBox_controls (w : World) (call_id : Z) :
  let b := GroupCallSettingsBox w call_id in
  let ch := channel w in
  In LevelMeter (rows b)
  /\ In (ButtonWithLabel lng_group_call_speakers (CurrentAudioOutputName w))
       (rows b)
  /\ In (ButtonWithLabel lng_group_call_microphone (CurrentAudioInputName w))
       (rows b)
  /\ (In (Button lng_group_call_share settingsButton) (rows b)
      <-> lookupLink ch <> EmptyString \/ canHaveInviteLink ch = true)
  /\ (In (Button lng_group_call_end settingsAttentionButton) (rows b)
      <-> canManageCall ch = true).
Proof.
  cbv zeta. rewrite GroupCallSettingsBox_rows.
  rewrite !in_app_iff.
  assert (Htop : forall text st,
            ~ In (Button text st)
                (match muteJoined (GroupCallSettingsBox w call_id) with
                 | Some checked =>
                     [Checkbox lng_group_call_new_muted checked; Skip]
                 | None => []
                 end)).
  { intros text st. destruct (muteJoined _); cbn; intuition congruence. }
  split; [right; left; cbn; tauto |].
  split; [right; left; cbn; tauto |].
  split; [right; left; cbn; tauto |].
  split.
  - rewrite <- isEmpty_false, <- negb_true_iff, <- orb_true_iff.
    destruct (negb (isEmpty (lookupLink (channel w)))
              || canHaveInviteLink (channel w)).
    + split; [reflexivity |]. intros _. right. right. left. cbn. tauto.
    + split; [| discriminate].
      intros [H | [H | [H | H]]].
      * apply Htop in H. destruct H.
      * cbn in H. intuition discriminate.
      * destruct H.
      * destruct (canManageCall (channel w)); cbn in H;
          intuition discriminate.
  - destruct (canManageCall (channel w)).
    + split; [reflexivity |]. intros _. right. right. right. cbn. tauto.
    + split; [| discriminate].
      intros [H | [H | [H | H]]].
      * apply Htop in H. destruct H.
      * cbn in H. intuition discriminate.
      * destruct (negb (isEmpty (lookupLink (channel w)))
                  || canHaveInviteLink (channel w)); cbn in H;
          intuition discriminate.
      * destruct H.
Qed.

(** C3, amended.  A click of the share button copies the link and sends
    no ExportChatInvite request when a link can be looked up; it sends
    exactly one ExportChatInvite request when there is no link and no link
    is being generated.  An answer of type chatInviteExported sets the
    invite link of the channel to the returned link and then runs
    [copyLink]: the clipboard gets the link that is looked up then, unless
    that is empty; it is the returned link when this is not empty and the
    channel has no username. *)
Theorem shareClicked_copies_or_exports (a : App) :
  let link := lookupLink (channel (world a)) in
  let clicked := exec shareClicked a in
  (link <> EmptyString ->
   clipboard (world clicked) = link
   /\ sent (world clicked) = sent (world a))
  /\ (link = EmptyString ->
      generatingLink (state (box a)) = false ->
      sent (world clicked)
      = sent (world a)
        ++ [MTPmessages_ExportChatInvite (input (channel (world a)))]
      /\ clipboard (world clicked) = clipboard (world a))
  /\ (forall vlink,
      let answered := exec (exportChatInviteDone (chatInviteExported vlink)) a in
      let found := lookupLink (channel (world answered)) in
      inviteLink (channel (world answered)) = vlink
      /\ sent (world answered) = sent (world a)
      /\ clipboard (world answered)
         = (if isEmpty found then clipboard (world a) else found)
      /\ (hasUsername (channel (world a)) = false ->
          vlink <> EmptyString ->
          clipboard (world answered) = vlink)).
Proof.
  cbv zeta. destruct a as [w b].
  split; [| split].
  - intros Hlink. apply isEmpty_false in Hlink.
    unfold_prog. cbn. cbn in Hlink. rewrite Hlink. cbn.
    destruct (weakBox b); cbn; split; reflexivity.
  - intros Hlink Hgen. apply isEmpty_true in Hlink.
    unfold_prog. cbn. cbn in Hlink, Hgen. rewrite Hlink. cbn.
    rewrite Hgen. cbn. split; reflexivity.
  - intros vlink. unfold_prog. cbn.
    assert (Hfound : hasUsername (channel w) = false ->
                     lookupLink (setInviteLink vlink (channel w)) = vlink).
    { intros Hu. unfold lookupLink. cbn. rewrite Hu. reflexivity. }
    destruct (isEmpty (lookupLink (setInviteLink vlink (channel w)))) eqn:He;
      cbn.
    + rewrite ?He.
      split; [reflexivity |]. split; [reflexivity |].
      split; [reflexivity |].
      intros Hu Hv. rewrite (Hfound Hu) in He.
      apply isEmpty_true in He. contradiction.
    + destruct (weakBox b); cbn; rewrite ?He;
        (split; [reflexivity |]); (split; [reflexivity |]);
        (split; [reflexivity |]); intros Hu _; exact (Hfound Hu).
Qed.

(** *** Histories of events *)

Lemma run_snoc (a : App) (evs : list Event) (ev : Event) :
  run a (evs ++ [ev]) = step (run a evs) ev.
Proof. unfold run. rewrite fold_left_app. reflexivity. Qed.

(** No event changes what the lambdas captured, the rows, or the timer. *)
Lemma step_constants (a : App) (ev : Event) :
  let b := box a in
  let b' := box (step a ev) in
  id b' = id b
  /\ joinMuted b' = joinMuted b
  /\ canChangeJoinMuted b' = canChangeJoinMuted b
  /\ rows b' = rows b
  /\ levelUpdateTimer (state b') = levelUpdateTimer (state b)
  /\ (muteJoined b = None -> muteJoined b' = None).
Proof.
  cbv zeta. destruct a as [w b]. unfold_prog. cbn [fst snd world box].
  destruct ev; break_match; cbn; repeat split;
    try reflexivity; try congruence.
  intros ->. reflexivity.
Qed.

(** A destroyed box stays destroyed. *)
Lemma step_alive (a : App) (ev : Event) :
  weakBox (box (step a ev)) = true -> weakBox (box a) = true.
Proof.
  destruct a as [w b]. unfold_prog. cbn [fst snd world box].
  destruct ev; break_match; cbn; congruence.
Qed.

Lemma run_alive (a : App) (evs : list Event) :
  weakBox (box (run a evs)) = true -> weakBox (box a) = true.
Proof.
  induction evs as [| ev evs IH] using rev_ind; [trivial |].
  rewrite run_snoc. intros H. apply IH. exact (step_alive _ _ H).
Qed.

(** One event sends an ExportChatInvite request only by raising
    [generatingLink], and nothing lowers the flag. *)
Lemma step_exports (a : App) (ev : Event) :
  let a' := step a ev in
  (generatingLink (state (box a)) = true ->
   generatingLink (state (box a')) = true
   /\ exports (sent (world a')) = exports (sent (world a)))
  /\ (generatingLink (state (box a)) = false ->
      (generatingLink (state (box a')) = false
       /\ exports (sent (world a')) = exports (sent (world a)))
      \/ (generatingLink (state (box a')) = true
          /\ exports (sent (world a')) = S (exports (sent (world a))))).
Proof.
  cbv zeta. destruct a as [w b]. unfold exports. unfold_prog.
  cbn [fst snd world box].
  destruct ev; break_match; cbn;
    rewrite ?filter_app, ?length_app; cbn;
    rewrite ?Nat.add_0_r, ?Nat.add_1_r;
    (split; [intros Hg | intros Hg]); try tauto; try congruence;
    auto.
  all: exfalso;
    match goal with
    | E : _ && negb _ = true |- _ =>
        cbn in E; try rewrite Hg in E; discriminate E
    end.
Qed.

Lemma run_constants (a : App) (evs : list Event) :
  let b := box a in
  let b' := box (run a evs) in
  id b' = id b
  /\ joinMuted b' = joinMuted b
  /\ canChangeJoinMuted b' = canChangeJoinMuted b
  /\ rows b' = rows b
  /\ levelUpdateTimer (state b') = levelUpdateTimer (state b)
  /\ (muteJoined b = None -> muteJoined b' = None).
Proof.
  cbv zeta. induction evs as [| ev evs IH] using rev_ind.
  - cbn. repeat split. trivial.
  - rewrite run_snoc.
    destruct IH as (H1 & H2 & H3 & H4 & H5 & H6).
    destruct (step_constants (run a evs) ev) as (K1 & K2 & K3 & K4 & K5 & K6).
    repeat split; try congruence. auto.
Qed.

(** An event sends a ToggleGroupCallSettings request only from a box that
    found join-muted changeable when it was built. *)
Lemma step_toggles (a : App) (ev : Event) :
  canChangeJoinMuted (box a) = false ->
  toggles (sent (world (step a ev))) = toggles (sent (world a)).
Proof.
  destruct a as [w b]. unfold toggles. unfold_prog.
  cbn [fst snd world box]. intros Hcan.
  destruct ev; break_match; cbn; rewrite ?filter_app; cbn;
    rewrite ?app_nil_r; try reflexivity;
    cbn in *; congruence.
Qed.

(** Only a firing of the running timer of a live box takes the level. *)
Lemma step_level (a : App) (ev : Event) :
  let s := state (box a) in
  let s' := state (box (step a ev)) in
  match ev with
  | LevelUpdateTimer level =>
      if weakBox (box a) && timerRuns (levelUpdateTimer s)
      then micLevel s' = level
           /\ levelReads (micTester s') = S (levelReads (micTester s))
           /\ micLevelAnimation s'
              = Some {| from := micLevel s; to := level;
                        duration := kMicTestAnimationDuration |}
      else step a ev = a
  | _ =>
      micLevel s' = micLevel s
      /\ levelReads (micTester s') = levelReads (micTester s)
  end.
Proof.
  cbv zeta. destruct a as [w b]. unfold_prog. cbn [fst snd world box].
  destruct ev; break_match; cbn in *; repeat split; try congruence.
  all: exfalso;
    match goal with
    | E : ?x && ?y = _, E0 : ?x = _ |- _ =>
        rewrite E0 in E; cbn in E; congruence
    end.
Qed.

(** C8.  [generatingLink] is raised by the click that sends the
    ExportChatInvite request and no event lowers it, so in every history
    of a box, answers that fail or are not of type chatInviteExported
    included, at most one ExportChatInvite request is sent. *)
Theorem at_most_one_ExportChatInvite
    (w : World) (call_id : Z) (evs : list Event) :
  let a := run (opened w call_id) evs in
  (exports (sent (world a)) <= S (exports (sent w)))%nat
  /\ (generatingLink (state (box a)) = false ->
      exports (sent (world a)) = exports (sent w))
  /\ (forall ev,
      exports (sent (world (step a ev))) <> exports (sent (world a)) ->
      generatingLink (state (box a)) = false
      /\ generatingLink (state (box (step a ev))) = true)
  /\ (forall more,
      generatingLink (state (box a)) = true ->
      generatingLink (state (box (run a more))) = true
      /\ exports (sent (world (run a more))) = exports (sent (world a))).
Proof.
  cbv zeta.
  assert (Hinv : forall evs',
    let a := run (opened w call_id) evs' in
    (generatingLink (state (box a)) = false ->
     exports (sent (world a)) = exports (sent w))
    /\ (exports (sent (world a)) <= S (exports (sent w)))%nat).
  { induction evs' as [| ev evs' IH] using rev_ind; cbv zeta.
    - cbn. split; [reflexivity | lia].
    - rewrite run_snoc. cbv zeta in IH. destruct IH as [IHf IHle].
      destruct (step_exports (run (opened w call_id) evs') ev) as [St Sf].
      destruct (generatingLink (state (box (run (opened w call_id) evs'))))
        eqn:Hg.
      + destruct (St eq_refl) as [Hg' He]. rewrite He.
        split; [congruence | exact IHle].
      + specialize (IHf eq_refl).
        destruct (Sf eq_refl) as [[Hg' He] | [Hg' He]]; rewrite He, IHf.
        * split; [reflexivity | lia].
        * split; [congruence | lia]. }
  assert (Hkeep : forall a more,
    generatingLink (state (box a)) = true ->
    generatingLink (state (box (run a more))) = true
    /\ exports (sent (world (run a more))) = exports (sent (world a))).
  { intros a more Hg.
    induction more as [| ev more IH] using rev_ind.
    - cbn. split; [exact Hg | reflexivity].
    - rewrite run_snoc. destruct IH as [IHg IHe].
      destruct (proj1 (step_exports (run a more) ev) IHg) as [Hg' He].
      split; [exact Hg' | congruence]. }
  destruct (Hinv evs) as [Hf Hle].
  split; [exact Hle |]. split; [exact Hf |]. split.
  - intros ev Hne.
    destruct (step_exports (run (opened w call_id) evs) ev) as [St Sf].
    destruct (generatingLink (state (box (run (opened w call_id) evs))))
      eqn:Hg.
    + destruct (St eq_refl) as [_ He]. contradiction.
    + destruct (Sf eq_refl) as [[_ He] | [Hg' _]];
        [contradiction | split; [reflexivity | exact Hg']].
  - intros more. apply Hkeep.
Qed.

(** C10.  A box built for a stale call, when the channel has no current
    call or a call with another id, takes join-muted as false and as not
    changeable and builds no mute-joined checkbox; whatever happens to it
    afterwards, it sends no ToggleGroupCallSettings request. *)
Theorem stale_call_never_saves
    (w : World) (call_id : Z) (evs : list Event) :
  goodReal (channel w) call_id = false ->
  let b := GroupCallSettingsBox w call_id in
  joinMuted b = false
  /\ canChangeJoinMuted b = false
  /\ muteJoined b = None
  /\ (forall checked,
      ~ In (Checkbox lng_group_call_new_muted checked) (rows b))
  /\ toggles (sent (world (run (opened w call_id) evs))) = toggles (sent w).
Proof.
  intros Hstale. cbv zeta.
  assert (Hjm : joinMuted (GroupCallSettingsBox w call_id) = false).
  { unfold GroupCallSettingsBox. cbn [joinMuted]. rewrite Hstale.
    reflexivity. }
  assert (Hcan : canChangeJoinMuted (GroupCallSettingsBox w call_id) = false).
  { unfold GroupCallSettingsBox. cbn [canChangeJoinMuted]. rewrite Hstale.
    reflexivity. }
  assert (Hnone : muteJoined (GroupCallSettingsBox w call_id) = None).
  { unfold GroupCallSettingsBox. cbn [muteJoined]. rewrite Hstale.
    rewrite andb_false_r. reflexivity. }
  split; [exact Hjm |]. split; [exact Hcan |]. split; [exact Hnone |].
  split.
  - intros checked. rewrite GroupCallSettingsBox_rows, Hnone.
    cbn [app]. intros [H | [H | [H | [H | H]]]]; try discriminate H.
    apply in_app_iff in H. destruct H as [H | H].
    + destruct (negb _ || _); cbn in H; intuition discriminate.
    + destruct (canManageCall _); cbn in H; intuition discriminate.
  - induction evs as [| ev evs IH] using rev_ind; [reflexivity |].
    rewrite run_snoc. rewrite step_toggles; [exact IH |].
    destruct (run_constants (opened w call_id) evs) as (_ & _ & H3 & _).
    rewrite H3. exact Hcan.
Qed.

Lemma lastLevel_snoc (evs : list Event) (ev : Event) :
  lastLevel (evs ++ [ev])
  = match ev with
    | LevelUpdateTimer level => level
    | _ => lastLevel evs
    end.
Proof. unfold lastLevel. rewrite fold_left_app. reflexivity. Qed.

Lemma timerFirings_snoc (evs : list Event) (ev : Event) :
  timerFirings (evs ++ [ev])
  = match ev with
    | LevelUpdateTimer _ => S (timerFirings evs)
    | _ => timerFirings evs
    end.
Proof.
  unfold timerFirings. rewrite filter_app, length_app.
  destruct ev; cbn; lia.
Qed.

(** While the box lives, [micLevel] is the level taken at the last firing
    of the timer and the tester was read once for each firing. *)
Lemma run_level (w : World) (call_id : Z) (evs : list Event) :
  let a := run (opened w call_id) evs in
  weakBox (box a) = true ->
  micLevel (state (box a)) = lastLevel evs
  /\ levelReads (micTester (state (box a))) = timerFirings evs.
Proof.
  cbv zeta. induction evs as [| ev evs IH] using rev_ind.
  - intros _. split; reflexivity.
  - rewrite run_snoc, lastLevel_snoc, timerFirings_snoc. intros Halive.
    pose proof (step_alive _ _ Halive) as Hbefore.
    destruct (IH Hbefore) as [IHl IHr].
    pose proof (step_level (run (opened w call_id) evs) ev) as Hstep.
    cbv zeta in Hstep.
    destruct (run_constants (opened w call_id) evs)
      as (_ & _ & _ & _ & Htimer & _).
    destruct ev; try (destruct Hstep as [Hl Hr]; split; congruence).
    rewrite Hbefore, Htimer in Hstep. cbn in Hstep.
    destruct Hstep as (Hl & Hr & _). split; congruence.
Qed.

(** C5.  The box is built with its one timer, [levelUpdateTimer], set to
    call its callback each [kMicTestUpdateInterval].  Each firing on a
    live box reads the microphone level once with [getAndResetLevel],
    keeps it in [micLevel], and starts an animation of duration
    [kMicTestAnimationDuration] from the level taken at the firing before
    (zero before the first firing) to the level just taken; the frames of
    the animation set the value the level meter displays, and no other
    event reads the level. *)
Theorem levelUpdateTimer_polls_and_animates
    (w : World) (call_id : Z) (evs : list Event) (level : Level) :
  let a := run (opened w call_id) evs in
  let a' := step a (LevelUpdateTimer level) in
  levelUpdateTimer (state (GroupCallSettingsBox w call_id))
  = {| callEach := Some kMicTestUpdateInterval; hasCallback := true |}
  /\ (weakBox (box a) = true ->
      levelReads (micTester (state (box a'))) = S (timerFirings evs)
      /\ micLevel (state (box a')) = level
      /\ micLevelAnimation (state (box a'))
         = Some {| from := lastLevel evs; to := level;
                   duration := kMicTestAnimationDuration |}
      /\ a' = exec (levelUpdate level) a)
  /\ (forall current,
      micTestLevel (state (box (exec (levelAnimationFrame current) a')))
      = match current with
        | Some v => v
        | None => micLevel (state (box a'))
        end)
  /\ (forall ev,
      levelReads (micTester (state (box (step a ev))))
      <> levelReads (micTester (state (box a))) ->
      exists polled, ev = LevelUpdateTimer polled).
Proof.
  cbv zeta. split; [reflexivity |]. split; [| split].
  - intros Halive.
    destruct (run_level w call_id evs Halive) as [Hl Hr].
    pose proof (step_level (run (opened w call_id) evs)
                  (LevelUpdateTimer level)) as Hstep.
    cbv zeta in Hstep.
    destruct (run_constants (opened w call_id) evs)
      as (_ & _ & _ & _ & Htimer & _).
    rewrite Halive, Htimer in Hstep. cbn in Hstep.
    destruct Hstep as (Hl' & Hr' & Ha').
    rewrite Hr', Hr, Hl', Ha', Hl.
    repeat split.
    unfold step, handle, whileShown, exec, bind, gets. cbn [fst snd].
    rewrite Halive, Htimer. reflexivity.
  - intros current.
    destruct (step (run (opened w call_id) evs) (LevelUpdateTimer level))
      as [w' b'].
    destruct current; reflexivity.
  - intros ev Hne.
    pose proof (step_level (run (opened w call_id) evs) ev) as Hstep.
    cbv zeta in Hstep.
    destruct ev; try (destruct Hstep as [_ Hr]; contradiction).
    eexists. reflexivity.
Qed.

(** ** Further properties *)

(** *** [SaveCallJoinMuted] *)

(** X1.  Saving the same value twice is saving it once: the second call
    meets the value it wants and returns without a request. *)
Theorem SaveCallJoinMuted_twice (w : World) (callId : Z) (muted : bool) :
  let once := exec (SaveCallJoinMuted callId muted) w in
  SaveCallJoinMuted callId muted once = (tt, once).
Proof.
  cbv zeta. unfold SaveCallJoinMuted, exec, bind, gets, modify, ret.
  cbn [fst snd].
  destruct (call (channel w)) as [c |] eqn:Hc.
  2:{ cbn. rewrite Hc. reflexivity. }
  destruct (negb (Data.id c =? callId)
            || negb (canManageCall (channel w))
            || negb (Data.canChangeJoinMuted c)
            || Bool.eqb (Data.joinMuted c) muted) eqn:Hb.
  - cbn. rewrite Hc, Hb. reflexivity.
  - cbn. rewrite Bool.eqb_reflx, orb_true_r. reflexivity.
Qed.

(** The save on closing returns at once for a stale call. *)
Lemma boxClosing_stale (a : App) :
  goodReal (channel (world a)) (id (box a)) = false ->
  world (exec boxClosing a) = world a.
Proof.
  destruct a as [w b]. unfold goodReal. cbn [world box]. intros Hstale.
  unfold boxClosing, inWorld, SaveCallJoinMuted, exec, bind, gets, ret.
  cbn [fst snd world box].
  destruct (canChangeJoinMuted b); [| reflexivity].
  destruct (muteJoined b) as [checked |]; [| reflexivity].
  destruct (negb (Bool.eqb checked (joinMuted b))); [| reflexivity].
  cbn. destruct (call (channel w)) as [c |]; [| reflexivity].
  rewrite Hstale. reflexivity.
Qed.

(** What the three ways of closing the box do. *)
Lemma step_closing (a : App) :
  step a DoneClicked = (if weakBox (box a) then exec closeBox a else a)
  /\ step a BoxClosed = (if weakBox (box a) then exec closeBox a else a)
  /\ step a EndClicked
     = (if weakBox (box a)
           && existsb (isButton lng_group_call_end) (rows (box a))
           && weakCall (world a)
        then exec closeBox (onWorld (show (LeaveGroupCallBox true)) a)
        else a).
Proof.
  unfold step, handle, whileShown, ifButton, doneClicked, endClicked,
    exec, bind, gets, modify, ret.
  cbn [fst snd].
  destruct (weakBox (box a)); cbn [andb fst snd]; [| repeat split].
  split; [reflexivity |]. split; [reflexivity |].
  destruct (existsb (isButton lng_group_call_end) (rows (box a)));
    cbn [andb fst snd]; [| reflexivity].
  destruct (weakCall (world a)); reflexivity.
Qed.

(** X2.  A box whose call is no longer the current call of the channel
    when it closes changes nothing in the world, whatever its checkbox
    says: the save it may call returns at once.  The end-call button
    still shows the leave box before it closes the box. *)
Theorem closing_for_stale_call_changes_nothing (a : App) :
  goodReal (channel (world a)) (id (box a)) = false ->
  world (step a DoneClicked) = world a
  /\ world (step a BoxClosed) = world a
  /\ world (step a EndClicked)
     = (if weakBox (box a)
           && existsb (isButton lng_group_call_end) (rows (box a))
           && weakCall (world a)
        then show (LeaveGroupCallBox true) (world a)
        else world a).
Proof.
  intros Hstale.
  assert (Hclose : forall a0 : App,
            goodReal (channel (world a0)) (id (box a0)) = false ->
            world (exec closeBox a0) = world a0).
  { intros a0 H0. pose proof (boxClosing_stale a0 H0) as Hw.
    unfold closeBox, exec, bind, modify in *. cbn [fst snd] in *.
    exact Hw. }
  destruct (step_closing a) as (Hdone & Hclosed & Hend).
  rewrite Hdone, Hclosed, Hend.
  destruct (weakBox (box a)); cbn [andb]; [| repeat split].
  split; [exact (Hclose a Hstale) |].
  split; [exact (Hclose a Hstale) |].
  destruct (existsb (isButton lng_group_call_end) (rows (box a))
            && weakCall (world a)); [| reflexivity].
  rewrite (Hclose (onWorld (show (LeaveGroupCallBox true)) a)).
  - reflexivity.
  - destruct a as [w b]. exact Hstale.
Qed.

(** *** The checkbox and the save on closing *)

Lemma two_clicks (a : App) :
  weakBox (box a) = true ->
  step (step a MuteJoinedClicked) MuteJoinedClicked = a.
Proof.
  destruct a as [w b]. cbn [box]. intros Halive.
  unfold step, handle, whileShown, exec, bind, gets, modify, ret.
  cbn. rewrite Halive. cbn. rewrite Halive. cbn.
  destruct b as [wb t r bs s i jm cc [checked |]];
    unfold onBox, setChecked; cbn;
    rewrite ?negb_involutive; reflexivity.
Qed.

Lemma run_clicks (a : App) (n : nat) :
  weakBox (box a) = true ->
  run a (repeat MuteJoinedClicked n)
  = (if Nat.even n then a else step a MuteJoinedClicked).
Proof.
  intros Halive.
  enough (H : run a (repeat MuteJoinedClicked n)
              = (if Nat.even n then a else step a MuteJoinedClicked)
              /\ run a (repeat MuteJoinedClicked (S n))
                 = (if Nat.even (S n) then a else step a MuteJoinedClicked))
    by exact (proj1 H).
  induction n as [| n [IH0 IH1]].
  - split; reflexivity.
  - split; [exact IH1 |].
    change (run a (repeat MuteJoinedClicked (S (S n))))
      with (run (step (step a MuteJoinedClicked) MuteJoinedClicked)
              (repeat MuteJoinedClicked n)).
    rewrite (two_clicks a Halive). exact IH0.
Qed.

(** The box is built with the checkbox showing what the call has, so
    closing it at once saves nothing. *)
Lemma boxClosing_opened (w : World) (call_id : Z) :
  boxClosing (opened w call_id) = (tt, opened w call_id).
Proof.
  unfold boxClosing, opened, GroupCallSettingsBox, bind, gets, ret.
  cbn [fst snd box canChangeJoinMuted muteJoined joinMuted id].
  destruct (goodReal (channel w) call_id && _); [| reflexivity].
  destruct (canManageCall (channel w) && true); [| reflexivity].
  rewrite Bool.eqb_reflx. reflexivity.
Qed.

(** X3.  Opening the box and closing it, at once or after the checkbox
    was clicked an even number of times, leaves the world as it was: no
    request, and the channel untouched. *)
Theorem open_and_close_changes_nothing
    (w : World) (call_id : Z) (n : nat) :
  Nat.even n = true ->
  let a := run (opened w call_id) (repeat MuteJoinedClicked n) in
  world (step a DoneClicked) = w
  /\ world (step a BoxClosed) = w
  /\ weakBox (box (step a DoneClicked)) = false.
Proof.
  intros Heven. cbv zeta.
  rewrite (run_clicks (opened w call_id) n eq_refl), Heven.
  destruct (step_closing (opened w call_id)) as (Hdone & Hclosed & _).
  rewrite Hdone, Hclosed.
  change (weakBox (box (opened w call_id))) with true. cbv iota.
  unfold closeBox, exec, bind, modify. cbn [fst snd].
  rewrite boxClosing_opened. repeat split.
Qed.

(** X4.  When the box has the checkbox and it was clicked an odd number
    of times, closing the box, with the channel as it was when the box
    was built, sends exactly one ToggleGroupCallSettings request, for the
    call of the box and with the opposite of the value the call had, and
    the call has the new value locally. *)
Theorem changed_checkbox_is_saved_on_close
    (w : World) (call_id : Z) (n : nat) :
  Nat.even n = false ->
  muteJoined (box (opened w call_id)) <> None ->
  let a :=
    step (run (opened w call_id) (repeat MuteJoinedClicked n)) DoneClicked in
  exists real,
    call (channel w) = Some real
    /\ Data.id real = call_id
    /\ sent (world a)
       = sent w
         ++ [MTPphone_ToggleGroupCallSettings
               [f_join_muted] (Data.input real)
               (negb (Data.joinMuted real))]
    /\ call (channel (world a))
       = Some (Data.setJoinMutedLocally (negb (Data.joinMuted real)) real)
    /\ clipboard (world a) = clipboard w.
Proof.
  intros Hodd. cbv zeta.
  rewrite (run_clicks (opened w call_id) n eq_refl), Hodd.
  destruct w as [ch wc sn aw cl ts sh dev outn inn].
  destruct ch as [[real |] cm hu un il chl inp].
  2:{ unfold opened, GroupCallSettingsBox, goodReal. cbn.
      rewrite andb_false_r. congruence. }
  destruct cm.
  2:{ unfold opened, GroupCallSettingsBox. cbn. congruence. }
  destruct (Data.id real =? call_id) eqn:Hid.
  2:{ unfold opened, GroupCallSettingsBox, goodReal. cbn. rewrite Hid.
      cbn. congruence. }
  destruct (Data.canChangeJoinMuted real) eqn:Hcan.
  2:{ unfold opened, GroupCallSettingsBox, goodReal. cbn. rewrite Hid, Hcan.
      cbn. congruence. }
  intros _. exists real. split; [reflexivity |].
  split; [apply Z.eqb_eq; exact Hid |].
  unfold opened, GroupCallSettingsBox, goodReal. unfold_prog. cbn.
  rewrite Hid, Hcan. cbn.
  destruct (Data.joinMuted real) eqn:Hjm; cbn; rewrite Hid, Hcan, Hjm; cbn;
    repeat split.
Qed.

(** *** What a box sends in its lifetime *)

(** A ToggleGroupCallSettings request leaves only with the closing of the
    box, which destroys it. *)
Lemma step_toggles_once (a : App) (ev : Event) :
  let a' := step a ev in
  (weakBox (box a) = false ->
   toggles (sent (world a')) = toggles (sent (world a)))
  /\ (weakBox (box a) = true ->
      toggles (sent (world a')) = toggles (sent (world a))
      \/ (weakBox (box a') = false
          /\ exists r, toggles (sent (world a'))
                       = toggles (sent (world a)) ++ [r])).
Proof.
  cbv zeta. destruct a as [w b]. unfold toggles. unfold_prog.
  cbn [fst snd world box].
  split; intros Halive; rewrite ?Halive; cbn [fst snd];
    destruct ev; break_match; cbn; rewrite ?filter_app; cbn;
    rewrite ?app_nil_r; auto;
    try (right; split; [reflexivity | eexists; reflexivity]).
  all: cbn in *; congruence.
Qed.

(** X5.  In every history of a box at most one ToggleGroupCallSettings
    request is sent, and none while the box is still shown: the request
    goes out when the box closes. *)
Theorem at_most_one_ToggleGroupCallSettings
    (w : World) (call_id : Z) (evs : list Event) :
  let a := run (opened w call_id) evs in
  (weakBox (box a) = true -> toggles (sent (world a)) = toggles (sent w))
  /\ (toggles (sent (world a)) = toggles (sent w)
      \/ exists r, toggles (sent (world a)) = toggles (sent w) ++ [r])
  /\ (List.length (toggles (sent (world a)))
      <= S (List.length (toggles (sent w))))%nat.
Proof.
  cbv zeta.
  enough (H : (weakBox (box (run (opened w call_id) evs)) = true ->
               toggles (sent (world (run (opened w call_id) evs)))
               = toggles (sent w))
              /\ (toggles (sent (world (run (opened w call_id) evs)))
                  = toggles (sent w)
                  \/ exists r,
                      toggles (sent (world (run (opened w call_id) evs)))
                      = toggles (sent w) ++ [r])).
  { destruct H as [H1 H2]. split; [exact H1 |]. split; [exact H2 |].
    destruct H2 as [-> | [r ->]]; [lia |].
    rewrite length_app. cbn. lia. }
  induction evs as [| ev evs [IHa IHd]] using rev_ind.
  - split; [reflexivity | left; reflexivity].
  - rewrite run_snoc.
    destruct (step_toggles_once (run (opened w call_id) evs) ev)
      as [Sdead Salive].
    destruct (weakBox (box (run (opened w call_id) evs))) eqn:Halive.
    + specialize (IHa eq_refl).
      destruct (Salive eq_refl) as [Heq | [Hdead [r Hr]]].
      * rewrite Heq, IHa. split; [reflexivity | left; reflexivity].
      * rewrite Hr, IHa, Hdead. split; [discriminate |].
        right. exists r. reflexivity.
    + rewrite (Sdead eq_refl). split; [| exact IHd].
      intros Hnow. apply step_alive in Hnow. congruence.
Qed.

(** A box without the checkbox sends no ToggleGroupCallSettings request. *)
Lemma step_toggles_no_checkbox (a : App) (ev : Event) :
  muteJoined (box a) = None ->
  toggles (sent (world (step a ev))) = toggles (sent (world a)).
Proof.
  destruct a as [w b]. unfold toggles. unfold_prog.
  cbn [fst snd world box]. intros Hnone.
  destruct ev; break_match; cbn; rewrite ?filter_app; cbn;
    rewrite ?app_nil_r; try reflexivity;
    cbn in *; congruence.
Qed.

(** The leave box is shown only by the end-call button of a live box,
    for a call that is still there; the box is destroyed with it. *)
Lemma step_leaveBoxes (a : App) (ev : Event) :
  let a' := step a ev in
  leaveBoxes (shown (world a')) = leaveBoxes (shown (world a))
  \/ (leaveBoxes (shown (world a')) = S (leaveBoxes (shown (world a)))
      /\ weakBox (box a) = true
      /\ existsb (isButton lng_group_call_end) (rows (box a)) = true
      /\ weakCall (world a) = true
      /\ weakBox (box a') = false).
Proof.
  cbv zeta. destruct a as [w b]. unfold leaveBoxes. unfold_prog.
  cbn [fst snd world box].
  destruct ev; break_match; cbn; rewrite ?filter_app, ?length_app; cbn;
    rewrite ?Nat.add_0_r, ?Nat.add_1_r; auto;
    right; cbn in *; repeat split; congruence.
Qed.

Lemma step_weakCall (a : App) (ev : Event) :
  weakCall (world a) = false -> weakCall (world (step a ev)) = false.
Proof.
  destruct a as [w b]. unfold_prog. cbn [fst snd world box].
  intros Hdead. destruct ev; break_match; cbn; congruence.
Qed.

(** X6.  A box built for a user who cannot manage the call has neither
    the checkbox nor the end-call button; whatever happens to it, rights
    granted later included, it sends no ToggleGroupCallSettings request
    and shows no leave box. *)
Theorem without_manage_rights_nothing_is_changed
    (w : World) (call_id : Z) (evs : list Event) :
  canManageCall (channel w) = false ->
  let a := run (opened w call_id) evs in
  muteJoined (box a) = None
  /\ existsb (isButton lng_group_call_end) (rows (box a)) = false
  /\ toggles (sent (world a)) = toggles (sent w)
  /\ leaveBoxes (shown (world a)) = leaveBoxes (shown w).
Proof.
  intros Hm. cbv zeta.
  assert (Hnone : muteJoined (GroupCallSettingsBox w call_id) = None).
  { unfold GroupCallSettingsBox. cbn [muteJoined]. rewrite Hm. reflexivity. }
  assert (Hrows : existsb (isButton lng_group_call_end)
                    (rows (GroupCallSettingsBox w call_id)) = false).
  { rewrite GroupCallSettingsBox_rows, Hnone, Hm. cbn [app].
    destruct (negb _ || _); reflexivity. }
  induction evs as [| ev evs (IH1 & IH2 & IH3 & IH4)] using rev_ind.
  - repeat split; assumption.
  - rewrite run_snoc.
    destruct (step_constants (run (opened w call_id) evs) ev)
      as (_ & _ & _ & Kr & _ & Kn).
    split; [exact (Kn IH1) |].
    split; [rewrite Kr; exact IH2 |].
    split; [rewrite (step_toggles_no_checkbox _ ev IH1); exact IH3 |].
    destruct (step_leaveBoxes (run (opened w call_id) evs) ev)
      as [Heq | (_ & _ & Hb & _)]; [congruence |].
    rewrite IH2 in Hb. discriminate Hb.
Qed.

(** X7.  Once the call object is gone the end-call button does nothing:
    no leave box is shown any more, and a click on the button leaves the
    box open. *)
Theorem after_call_destroyed_no_leave_box (a : App) (evs : list Event) :
  weakCall (world a) = false ->
  leaveBoxes (shown (world (run a evs))) = leaveBoxes (shown (world a))
  /\ step (run a evs) EndClicked = run a evs.
Proof.
  intros Hdead.
  assert (Hinv : weakCall (world (run a evs)) = false
                 /\ leaveBoxes (shown (world (run a evs)))
                    = leaveBoxes (shown (world a))).
  { induction evs as [| ev evs [IHc IHl]] using rev_ind.
    - split; [exact Hdead | reflexivity].
    - rewrite run_snoc. split; [exact (step_weakCall _ ev IHc) |].
      destruct (step_leaveBoxes (run a evs) ev)
        as [Heq | (_ & _ & _ & Hc & _)]; congruence. }
  destruct Hinv as [Hc Hl]. split; [exact Hl |].
  destruct (step_closing (run a evs)) as (_ & _ & Hend).
  rewrite Hend, Hc, andb_false_r. reflexivity.
Qed.

(** Without the share button nothing is exported and [generatingLink]
    stays as it is. *)
Lemma step_exports_no_button (a : App) (ev : Event) :
  existsb (isButton lng_group_call_share) (rows (box a)) = false ->
  exports (sent (world (step a ev))) = exports (sent (world a))
  /\ generatingLink (state (box (step a ev)))
     = generatingLink (state (box a)).
Proof.
  destruct a as [w b]. unfold exports. unfold_prog.
  cbn [fst snd world box]. intros Hno.
  destruct ev; break_match; cbn; rewrite ?filter_app, ?length_app; cbn;
    rewrite ?Nat.add_0_r; try (split; reflexivity);
    cbn in *; congruence.
Qed.

(** X8.  A box built for a channel that has no link and cannot have an
    invite link has no share button, and in every history it sends no
    ExportChatInvite request and never starts generating a link. *)
Theorem without_share_button_nothing_is_exported
    (w : World) (call_id : Z) (evs : list Event) :
  lookupLink (channel w) = EmptyString ->
  canHaveInviteLink (channel w) = false ->
  let a := run (opened w call_id) evs in
  existsb (isButton lng_group_call_share) (rows (box a)) = false
  /\ exports (sent (world a)) = exports (sent w)
  /\ generatingLink (state (box a)) = false.
Proof.
  intros Hlink Hcan. cbv zeta.
  assert (Hrows : existsb (isButton lng_group_call_share)
                    (rows (GroupCallSettingsBox w call_id)) = false).
  { rewrite GroupCallSettingsBox_rows, Hlink, Hcan. cbn [isEmpty negb orb].
    destruct (muteJoined _); destruct (canManageCall _); reflexivity. }
  induction evs as [| ev evs (IH1 & IH2 & IH3)] using rev_ind.
  - repeat split. exact Hrows.
  - rewrite run_snoc.
    destruct (step_constants (run (opened w call_id) evs) ev)
      as (_ & _ & _ & Kr & _).
    destruct (step_exports_no_button (run (opened w call_id) evs) ev IH1)
      as [He Hg].
    split; [rewrite Kr; exact IH1 |]. split; congruence.
Qed.

(** *** After the box is destroyed *)

Lemma step_destroyed (a : App) (ev : Event) :
  weakBox (box a) = false ->
  box (step a ev) = box a
  /\ toasts (world (step a ev)) = toasts (world a)
  /\ sent (world (step a ev)) = sent (world a).
Proof.
  destruct a as [w b]. unfold_prog. cbn [fst snd world box].
  intros Hdead.
  destruct ev; break_match; cbn; repeat split; cbn in *; congruence.
Qed.

(** X9.  After the box is destroyed no event touches the box or its
    [State], shows a toast or sends a request: the guarded picker
    callbacks do not run and [copyLink] skips the toast.  An answer to the
    export request that arrives then still stores the returned link and,
    for a channel without username and a link that is not empty, copies
    it. *)
Theorem destroyed_box_is_left_alone
    (a : App) (evs : list Event) (vlink : string) :
  weakBox (box a) = false ->
  let late := step (run a evs) (ExportChatInviteDone (chatInviteExported vlink)) in
  box (run a evs) = box a
  /\ toasts (world (run a evs)) = toasts (world a)
  /\ sent (world (run a evs)) = sent (world a)
  /\ (awaiting (world (run a evs)) <> O ->
      inviteLink (channel (world late)) = vlink
      /\ (hasUsername (channel (world (run a evs))) = false ->
          vlink <> EmptyString ->
          clipboard (world late) = vlink))
  /\ (awaiting (world (run a evs)) = O -> late = run a evs).
Proof.
  intros Hdead. cbv zeta.
  assert (Hinv : box (run a evs) = box a
                 /\ toasts (world (run a evs)) = toasts (world a)
                 /\ sent (world (run a evs)) = sent (world a)).
  { induction evs as [| ev evs (IHb & IHt & IHs)] using rev_ind.
    - repeat split.
    - rewrite run_snoc.
      assert (Hd : weakBox (box (run a evs)) = false) by congruence.
      destruct (step_destroyed (run a evs) ev Hd) as (Kb & Kt & Ks).
      repeat split; congruence. }
  destruct Hinv as (Hb & Ht & Hs).
  split; [exact Hb |]. split; [exact Ht |]. split; [exact Hs |].
  destruct (run a evs) as [w b]. cbn [box world] in *.
  unfold step, handle, ifAwaiting, exportChatInviteDone, copyLink,
    exec, bind, gets, modify, ret.
  cbn [fst snd world box].
  destruct (awaiting w) as [| n]; cbn [fst snd].
  - split; [congruence | reflexivity].
  - split; [| discriminate]. intros _.
    destruct (isEmpty (lookupLink (setInviteLink vlink (channel w)))) eqn:He;
      cbn; rewrite ?He; cbn.
    + split; [reflexivity |]. intros Hu Hv. exfalso.
      unfold lookupLink in He. cbn in He. rewrite Hu in He.
      apply isEmpty_true in He. contradiction.
    + destruct (weakBox b); cbn; (split; [reflexivity |]);
        intros Hu _; unfold lookupLink; cbn; rewrite Hu; reflexivity.
Qed.

(** *** The level meter *)

(** The value of the meter is set by the frames of a started animation
    and by nothing else; the animation is started by the timer only. *)
Lemma step_meter (a : App) (ev : Event) :
  let s := state (box a) in
  let s' := state (box (step a ev)) in
  match ev with
  | LevelAnimationFrame current =>
      micLevelAnimation s' = micLevelAnimation s
      /\ match micLevelAnimation s with
         | Some _ =>
             weakBox (box a) = true ->
             micTestLevel s' = match current with
                               | Some v => v
                               | None => micLevel s
                               end
         | None => step a ev = a
         end
  | LevelUpdateTimer _ => micTestLevel s' = micTestLevel s
  | _ =>
      micTestLevel s' = micTestLevel s
      /\ micLevelAnimation s' = micLevelAnimation s
  end.
Proof.
  cbv zeta. destruct a as [w b]. unfold_prog. cbn [fst snd world box].
  destruct ev; break_match; cbn in *; repeat split; congruence.
Qed.

Lemma run_animation (w : World) (call_id : Z) (evs : list Event) :
  let a := run (opened w call_id) evs in
  (timerFirings evs = O ->
   micLevelAnimation (state (box a)) = None
   /\ micTestLevel (state (box a)) = zeroLevel)
  /\ (weakBox (box a) = true ->
      timerFirings evs <> O ->
      exists was,
        micLevelAnimation (state (box a))
        = Some {| from := was; to := lastLevel evs;
                  duration := kMicTestAnimationDuration |}).
Proof.
  cbv zeta. induction evs as [| ev evs [IH0 IH1]] using rev_ind.
  - split; [split; reflexivity | intros _ H; contradiction].
  - rewrite run_snoc, lastLevel_snoc, timerFirings_snoc.
    pose proof (step_meter (run (opened w call_id) evs) ev) as Hm.
    pose proof (step_level (run (opened w call_id) evs) ev) as Hl.
    cbv zeta in Hm, Hl.
    destruct (run_constants (opened w call_id) evs)
      as (_ & _ & _ & _ & Htimer & _).
    split.
    + intros Hzero.
      destruct ev; try discriminate Hzero;
        destruct (IH0 Hzero) as [Hnone Hval];
        try (destruct Hm as [Hm1 Hm2]; split; congruence).
      destruct Hm as [_ Hm]. rewrite Hnone in Hm. rewrite Hm.
      split; assumption.
    + intros Halive Hfired.
      pose proof (step_alive _ _ Halive) as Hbefore.
      destruct ev;
        try (apply proj2 in Hm; rewrite Hm; exact (IH1 Hbefore Hfired)).
      * rewrite Hbefore, Htimer in Hl. cbn in Hl.
        destruct Hl as (_ & _ & Ha). eexists. exact Ha.
      * destruct Hm as [Hm1 _]. rewrite Hm1. exact (IH1 Hbefore Hfired).
Qed.

(** X10.  The level meter shows zero until the timer has fired.  Once it
    has, a frame of the running animation shows the value of the
    animation, its last frame shows the level taken at the last firing,
    and no other event moves the meter. *)
Theorem meter_follows_animation
    (w : World) (call_id : Z) (evs : list Event) :
  let a := run (opened w call_id) evs in
  (timerFirings evs = O ->
   micTestLevel (state (box a)) = zeroLevel
   /\ forall current, step a (LevelAnimationFrame current) = a)
  /\ (weakBox (box a) = true ->
      timerFirings evs <> O ->
      micTestLevel (state (box (step a (LevelAnimationFrame None))))
      = lastLevel evs
      /\ forall v,
          micTestLevel (state (box (step a (LevelAnimationFrame (Some v)))))
          = v)
  /\ (forall ev,
      micTestLevel (state (box (step a ev))) <> micTestLevel (state (box a)) ->
      exists current, ev = LevelAnimationFrame current).
Proof.
  cbv zeta.
  destruct (run_animation w call_id evs) as [H0 H1]. cbv zeta in H0, H1.
  split; [| split].
  - intros Hzero. destruct (H0 Hzero) as [Hnone Hval].
    split; [exact Hval |]. intros current.
    pose proof (step_meter (run (opened w call_id) evs)
                  (LevelAnimationFrame current)) as Hm.
    cbv zeta in Hm. destruct Hm as [_ Hm]. rewrite Hnone in Hm. exact Hm.
  - intros Halive Hfired.
    destruct (H1 Halive Hfired) as [was Hwas].
    destruct (run_level w call_id evs Halive) as [Hlevel _].
    split; [| intros v].
    + pose proof (step_meter (run (opened w call_id) evs)
                    (LevelAnimationFrame None)) as Hm.
      cbv zeta in Hm. destruct Hm as [_ Hm]. rewrite Hwas in Hm.
      rewrite (Hm Halive). exact Hlevel.
    + pose proof (step_meter (run (opened w call_id) evs)
                    (LevelAnimationFrame (Some v))) as Hm.
      cbv zeta in Hm. destruct Hm as [_ Hm]. rewrite Hwas in Hm.
      exact (Hm Halive).
  - intros ev Hne.
    pose proof (step_meter (run (opened w call_id) evs) ev) as Hm.
    cbv zeta in Hm.
    destruct ev; try contradiction;
      try (apply proj1 in Hm; contradiction).
    eexists. reflexivity.
Qed.

(** *** The device pickers *)

Lemma step_tester (a : App) (ev : Event) :
  isMicrophoneChosen ev = false ->
  deviceId (micTester (state (box (step a ev))))
  = deviceId (micTester (state (box a)))
  /\ inputNameStream (state (box (step a ev)))
     = inputNameStream (state (box a)).
Proof.
  destruct a as [w b]. unfold_prog. cbn [fst snd world box].
  intros Hev.
  destruct ev; try discriminate Hev; break_match; cbn in *;
    repeat split; congruence.
Qed.

Lemma run_tester (a : App) (evs : list Event) :
  forallb (fun ev => negb (isMicrophoneChosen ev)) evs = true ->
  deviceId (micTester (state (box (run a evs))))
  = deviceId (micTester (state (box a)))
  /\ inputNameStream (state (box (run a evs)))
     = inputNameStream (state (box a)).
Proof.
  induction evs as [| ev evs IH] using rev_ind.
  - intros _. split; reflexivity.
  - rewrite forallb_app. cbn. rewrite andb_true_r.
    intros H. apply andb_true_iff in H. destruct H as [Hevs Hev].
    apply negb_true_iff in Hev.
    rewrite run_snoc. destruct (IH Hevs) as [IHd IHn].
    destruct (step_tester (run a evs) ev Hev) as [Kd Kn].
    split; congruence.
Qed.

(** X11.  The mic tester listens to the input device of the settings and
    the box shows the current input name until a microphone is chosen;
    after a microphone is chosen in a shown picker of a live box, the
    tester listens to that device and the box shows its name, whatever
    else happens, speakers chosen included, until another microphone is
    chosen. *)
Theorem tester_follows_chosen_microphone
    (w : World) (call_id : Z) (evs more : list Event)
    (device name : string) :
  forallb (fun ev => negb (isMicrophoneChosen ev)) more = true ->
  let fresh := run (opened w call_id) more in
  let a := run (opened w call_id) evs in
  let chosen :=
    run (step a (DeviceChosen MicrophonePicker device name)) more in
  (deviceId (micTester (state (box fresh))) = callInputDeviceId w
   /\ displayedName (CurrentAudioInputName w)
        (inputNameStream (state (box fresh)))
      = CurrentAudioInputName w)
  /\ (weakBox (box a) = true ->
      existsb (isPicker MicrophonePicker) (shown (world a)) = true ->
      deviceId (micTester (state (box chosen))) = device
      /\ displayedName (CurrentAudioInputName w)
           (inputNameStream (state (box chosen)))
         = name).
Proof.
  intros Hmore. cbv zeta. split.
  - destruct (run_tester (opened w call_id) more Hmore) as [Hd Hn].
    rewrite Hd, Hn. split; reflexivity.
  - intros Halive Hshown.
    destruct (run_tester
                (step (run (opened w call_id) evs)
                   (DeviceChosen MicrophonePicker device name))
                more Hmore) as [Hd Hn].
    rewrite Hd, Hn.
    destruct (run (opened w call_id) evs) as [w0 b0].
    cbn [world box] in Halive, Hshown.
    unfold_prog. cbn [fst snd world box]. rewrite Hshown. cbn.
    rewrite Halive. cbn. unfold displayedName. rewrite last_last.
    split; reflexivity.
Qed.

(** *** A link is exported once and used afterwards *)

Lemma step_share (a : App) :
  weakBox (box a) = true ->
  existsb (isButton lng_group_call_share) (rows (box a)) = true ->
  step a ShareClicked = exec shareClicked a.
Proof.
  intros Halive Hbutton.
  unfold step, handle, whileShown, ifButton, exec, bind, gets, ret.
  cbn [fst snd]. rewrite Halive, Hbutton. reflexivity.
Qed.

Lemma step_answer (a : App) (n : nat) (result : MTPExportedChatInvite) :
  awaiting (world a) = S n ->
  step a (ExportChatInviteDone result)
  = exec (exportChatInviteDone result) (onWorld (setAwaiting n) a).
Proof.
  intros Hn.
  unfold step, handle, ifAwaiting, exec, bind, gets, modify, ret.
  cbn [fst snd]. rewrite Hn. reflexivity.
Qed.

Lemma copyLink_found (a : App) :
  lookupLink (channel (world a)) <> EmptyString ->
  copyLink a
  = (true,
     if weakBox (box a)
     then onWorld (Toast_Show lng_create_channel_link_copied)
            (onWorld (setClipboardText (lookupLink (channel (world a)))) a)
     else onWorld (setClipboardText (lookupLink (channel (world a)))) a).
Proof.
  intros Hlink. apply isEmpty_false in Hlink.
  unfold copyLink, bind, gets, modify, ret. cbn [fst snd].
  rewrite Hlink. destruct a as [w b]. cbn.
  destruct (weakBox b); reflexivity.
Qed.

Lemma shareClicked_asks (a : App) :
  lookupLink (channel (world a)) = EmptyString ->
  generatingLink (state (box a)) = false ->
  exec shareClicked a
  = onWorld (fun w => setAwaiting (S (awaiting w)) w)
      (onWorld
         (api_request
            (MTPmessages_ExportChatInvite (input (channel (world a)))))
         (onBox (onState (setGeneratingLink true)) a)).
Proof.
  intros Hlink Hgen. apply isEmpty_true in Hlink.
  unfold shareClicked, copyLink, exec, bind, gets, modify, ret.
  cbn [fst snd]. rewrite Hlink. cbn [fst snd negb andb].
  rewrite Hgen. reflexivity.
Qed.

Lemma answer_copies (a : App) (n : nat) (vlink : string) :
  awaiting (world a) = S n ->
  hasUsername (channel (world a)) = false ->
  vlink <> EmptyString ->
  step a (ExportChatInviteDone (chatInviteExported vlink))
  = (if weakBox (box a)
     then onWorld (Toast_Show lng_create_channel_link_copied)
     else fun a' => a')
      (onWorld (setClipboardText vlink)
         (onWorld (onChannel (setInviteLink vlink))
            (onWorld (setAwaiting n) a))).
Proof.
  intros Hn Hu Hv. rewrite (step_answer a n _ Hn).
  unfold exportChatInviteDone, exec, bind, modify, ret. cbn [fst snd].
  assert (Hfound :
    lookupLink
      (channel
         (world
            (onWorld (onChannel (setInviteLink vlink))
               (onWorld (setAwaiting n) a))))
    = vlink).
  { destruct a as [w b]. cbn in *. unfold lookupLink. cbn. rewrite Hu.
    reflexivity. }
  rewrite copyLink_found; [| rewrite Hfound; exact Hv].
  rewrite Hfound. cbn [fst snd].
  destruct a as [w b]. cbn. destruct (weakBox b); reflexivity.
Qed.

Lemma share_copies (a : App) :
  weakBox (box a) = true ->
  existsb (isButton lng_group_call_share) (rows (box a)) = true ->
  lookupLink (channel (world a)) <> EmptyString ->
  step a ShareClicked
  = onWorld (Toast_Show lng_create_channel_link_copied)
      (onWorld (setClipboardText (lookupLink (channel (world a)))) a).
Proof.
  intros Halive Hbutton Hlink. rewrite (step_share a Halive Hbutton).
  unfold shareClicked, exec, bind, gets, ret. cbn [fst snd].
  rewrite (copyLink_found a Hlink). cbn [fst snd negb andb].
  rewrite Halive. reflexivity.
Qed.

(** X12.  In a channel without username and invite link, a click on the
    share button asks for a link; when the answer brings a link that is
    not empty, the link is stored and copied, and the next click copies
    it again without a second request. *)
Theorem exported_link_is_reused (a : App) (vlink : string) :
  weakBox (box a) = true ->
  existsb (isButton lng_group_call_share) (rows (box a)) = true ->
  hasUsername (channel (world a)) = false ->
  inviteLink (channel (world a)) = EmptyString ->
  generatingLink (state (box a)) = false ->
  vlink <> EmptyString ->
  let answered :=
    run a [ShareClicked; ExportChatInviteDone (chatInviteExported vlink)] in
  let again := step answered ShareClicked in
  sent (world again)
  = sent (world a) ++ [MTPmessages_ExportChatInvite (input (channel (world a)))]
  /\ sent (world answered) = sent (world again)
  /\ inviteLink (channel (world again)) = vlink
  /\ clipboard (world answered) = vlink
  /\ clipboard (world again) = vlink
  /\ toasts (world again)
     = toasts (world a)
       ++ [lng_create_channel_link_copied; lng_create_channel_link_copied].
Proof.
  intros Halive Hbutton Hu Hlink Hgen Hv. cbv zeta.
  assert (Hnone : lookupLink (channel (world a)) = EmptyString).
  { unfold lookupLink. rewrite Hu. exact Hlink. }
  unfold run, fold_left.
  rewrite (step_share a Halive Hbutton).
  rewrite (shareClicked_asks a Hnone Hgen).
  rewrite (answer_copies _ (awaiting (world a)) vlink);
    [| destruct a; reflexivity | destruct a; exact Hu | exact Hv].
  destruct a as [w b]. cbn [world box] in *.
  cbn [box onWorld onBox onState weakBox]. rewrite Halive.
  rewrite share_copies;
    [| exact Halive | exact Hbutton
     | cbn; unfold lookupLink; cbn; rewrite Hu; exact Hv].
  cbn. unfold lookupLink. cbn. rewrite Hu.
  rewrite <- app_assoc. repeat split.
Qed.

(** *** Closing the box and the guard of the save *)

Lemma world_closeBox (a : App) :
  world (exec closeBox a) = world (exec boxClosing a).
Proof.
  unfold closeBox, exec, bind, modify. cbn [fst snd].
  destruct (snd (boxClosing a)); reflexivity.
Qed.

Lemma world_inWorld (m : M World unit) (a : App) :
  world (exec (inWorld m) a) = exec m (world a).
Proof. destruct a as [w b]. reflexivity. Qed.

(** C2, amended.  When a shown box closes, with the Done button or
    otherwise, join-muted is persisted, that is set locally on the call
    and sent in exactly one ToggleGroupCallSettings request with the
    checked state of the checkbox, if and only if join-muted could be
    changed when the box was built, the mute-joined checkbox exists, its
    checked state differs from the join-muted value taken when the box was
    built, and the guard of [SaveCallJoinMuted] passes at that moment: the
    current call of the channel has the call id of the box, the user can
    manage the call, join-muted can be changed, and the call does not
    have the checked value yet.  In every other case closing the box
    changes nothing in the world and sends no request. *)
Theorem boxClosing_persists_iff_changed_and_allowed
    (a : App) (closing : Event) :
  weakBox (box a) = true ->
  closing = DoneClicked \/ closing = BoxClosed ->
  let b := box a in
  let w := world a in
  let w' := world (step a closing) in
  let persisted checked c :=
    canChangeJoinMuted b = true
    /\ muteJoined b = Some checked
    /\ checked <> joinMuted b
    /\ call (channel w) = Some c
    /\ Data.id c = id b
    /\ canManageCall (channel w) = true
    /\ Data.canChangeJoinMuted c = true
    /\ Data.joinMuted c <> checked in
  (forall checked c,
   persisted checked c ->
   w' = api_request
          (MTPphone_ToggleGroupCallSettings
             [f_join_muted] (Data.input c) checked)
          (onChannel
             (withCall (Some (Data.setJoinMutedLocally checked c))) w)
   /\ call (channel w')
      = Some {| Data.id := Data.id c; Data.joinMuted := checked;
                Data.canChangeJoinMuted := Data.canChangeJoinMuted c;
                Data.input := Data.input c |}
   /\ sent w'
      = sent w
        ++ [MTPphone_ToggleGroupCallSettings
              [f_join_muted] (Data.input c) checked])
  /\ (~ (exists checked c, persisted checked c) -> w' = w)
  /\ (sent w' <> sent w <-> exists checked c, persisted checked c).
Proof.
  intros Halive Hclosing. cbv zeta.
  assert (Hstep : world (step a closing) = world (exec boxClosing a)).
  { destruct (step_closing a) as (Hdone & Hclosed & _).
    destruct Hclosing as [-> | ->];
      [rewrite Hdone | rewrite Hclosed];
      rewrite Halive; apply world_closeBox. }
  rewrite Hstep. clear Hstep.
  assert (Hyes : forall checked c,
    canChangeJoinMuted (box a) = true
    /\ muteJoined (box a) = Some checked
    /\ checked <> joinMuted (box a)
    /\ call (channel (world a)) = Some c
    /\ Data.id c = id (box a)
    /\ canManageCall (channel (world a)) = true
    /\ Data.canChangeJoinMuted c = true
    /\ Data.joinMuted c <> checked ->
    world (exec boxClosing a)
    = api_request
        (MTPphone_ToggleGroupCallSettings
           [f_join_muted] (Data.input c) checked)
        (onChannel
           (withCall (Some (Data.setJoinMutedLocally checked c)))
           (world a))).
  { intros checked c (Hcan & Hsome & Hneq & Hc & Hid & Hm & Hcc & Hjm).
    unfold boxClosing, exec, bind, gets, ret. cbn [fst snd].
    rewrite Hcan, Hsome.
    replace (Bool.eqb checked (joinMuted (box a))) with false
      by (symmetry; apply Bool.eqb_false_iff; exact Hneq).
    cbn [negb].
    change (world (exec (inWorld (SaveCallJoinMuted (id (box a)) checked)) a)
            = api_request
                (MTPphone_ToggleGroupCallSettings
                   [f_join_muted] (Data.input c) checked)
                (onChannel
                   (withCall (Some (Data.setJoinMutedLocally checked c)))
                   (world a))).
    rewrite world_inWorld.
    unfold SaveCallJoinMuted, exec, bind, gets, modify, ret.
    cbn [fst snd]. rewrite Hc.
    assert (Hpass :
      negb (Data.id c =? id (box a))
      || negb (canManageCall (channel (world a)))
      || negb (Data.canChangeJoinMuted c)
      || Bool.eqb (Data.joinMuted c) checked = false).
    { destruct (negb (Data.id c =? id (box a))
                || negb (canManageCall (channel (world a)))
                || negb (Data.canChangeJoinMuted c)
                || Bool.eqb (Data.joinMuted c) checked) eqn:Hg;
        [| reflexivity].
      apply save_guard_true in Hg.
      destruct Hg as [H | [H | [H | H]]]; congruence. }
    rewrite Hpass. reflexivity. }
  assert (Hno :
    ~ (exists checked c,
         canChangeJoinMuted (box a) = true
         /\ muteJoined (box a) = Some checked
         /\ checked <> joinMuted (box a)
         /\ call (channel (world a)) = Some c
         /\ Data.id c = id (box a)
         /\ canManageCall (channel (world a)) = true
         /\ Data.canChangeJoinMuted c = true
         /\ Data.joinMuted c <> checked) ->
    world (exec boxClosing a) = world a).
  { intros Hnot.
    unfold boxClosing, exec, bind, gets, ret. cbn [fst snd].
    destruct (canChangeJoinMuted (box a)) eqn:Hcan; [| reflexivity].
    destruct (muteJoined (box a)) as [checked |] eqn:Hsome; [| reflexivity].
    destruct (Bool.eqb checked (joinMuted (box a))) eqn:He; [reflexivity |].
    cbn [negb].
    change (world (exec (inWorld (SaveCallJoinMuted (id (box a)) checked)) a)
            = world a).
    rewrite world_inWorld.
    unfold SaveCallJoinMuted, exec, bind, gets, modify, ret.
    cbn [fst snd].
    destruct (call (channel (world a))) as [c |] eqn:Hc; [| reflexivity].
    destruct (negb (Data.id c =? id (box a))
              || negb (canManageCall (channel (world a)))
              || negb (Data.canChangeJoinMuted c)
              || Bool.eqb (Data.joinMuted c) checked) eqn:Hg;
      [reflexivity |].
    exfalso. apply Hnot. exists checked, c.
    apply Bool.eqb_false_iff in He.
    repeat rewrite orb_false_iff in Hg.
    destruct Hg as [[[Hid Hm] Hcc] Hjm].
    apply negb_false_iff in Hid, Hm, Hcc.
    apply Z.eqb_eq in Hid. apply Bool.eqb_false_iff in Hjm.
    repeat split; assumption. }
  split; [| split].
  - intros checked c Hp. rewrite (Hyes checked c Hp). repeat split.
  - exact Hno.
  - split.
    + intros Hsent.
      destruct (canChangeJoinMuted (box a)) eqn:Hcan.
      2:{ exfalso. apply Hsent. rewrite Hno; [reflexivity |].
          intros (checked & c & H & _). discriminate H. }
      destruct (muteJoined (box a)) as [checked |] eqn:Hsome.
      2:{ exfalso. apply Hsent. rewrite Hno; [reflexivity |].
          intros (checked & c & _ & H & _). discriminate H. }
      destruct (call (channel (world a))) as [c |] eqn:Hc.
      2:{ exfalso. apply Hsent. rewrite Hno; [reflexivity |].
          intros (checked' & c & _ & _ & _ & H & _). discriminate H. }
      destruct (Bool.eqb checked (joinMuted (box a))) eqn:He.
      { exfalso. apply Hsent. rewrite Hno; [reflexivity |].
        intros (checked' & c' & _ & H & Hneq & _).
        injection H as <-. apply Bool.eqb_prop in He. contradiction. }
      destruct (negb (Data.id c =? id (box a))
                || negb (canManageCall (channel (world a)))
                || negb (Data.canChangeJoinMuted c)
                || Bool.eqb (Data.joinMuted c) checked) eqn:Hg.
      { exfalso. apply Hsent. rewrite Hno; [reflexivity |].
        intros (checked' & c' & _ & H & _ & H' & Hid & Hm & Hcc & Hjm).
        injection H as <-. injection H' as <-.
        apply save_guard_true in Hg.
        destruct Hg as [Hg | [Hg | [Hg | Hg]]]; congruence. }
      exists checked, c.
      apply Bool.eqb_false_iff in He.
      repeat rewrite orb_false_iff in Hg.
      destruct Hg as [[[Hid Hm] Hcc] Hjm].
      apply negb_false_iff in Hid, Hm, Hcc.
      apply Z.eqb_eq in Hid. apply Bool.eqb_false_iff in Hjm.
      repeat split; assumption.
    + intros (checked & c & Hp). rewrite (Hyes checked c Hp). cbn [sent api_request onChannel].
      intros Heq. apply (f_equal (@List.length MTPRequest)) in Heq.
      rewrite length_app in Heq. cbn in Heq. lia.
Qed.

End SettingsBox.

(** ** The properties at sample inputs

    Levels are integers here, links are built with [sampleInternalLink],
    the timer period is 100 ms and the animation lasts 200 ms. *)

Lemma SaveCallJoinMuted_guarded_update_witness :
  SaveCallJoinMuted 8 true sampleWorld = (tt, sampleWorld)
  /\ sent (exec (SaveCallJoinMuted 7 true) sampleWorld)
     = [MTPphone_ToggleGroupCallSettings [f_join_muted] 70 true].
Proof.
  split.
  - apply (proj1 (SaveCallJoinMuted_guarded_update sampleWorld 8 true)).
    right. exists sampleCall. split; [reflexivity |].
    left. cbn. lia.
  - destruct (proj2 (SaveCallJoinMuted_guarded_update sampleWorld 7 true))
      as (c & Hc & _ & _ & Hsent).
    + intros [Hnone | (c & Hc & [H | [H | [H | H]]])].
      * discriminate Hnone.
      * injection Hc as <-. apply H. reflexivity.
      * discriminate H.
      * injection Hc as <-. discriminate H.
      * injection Hc as <-. discriminate H.
    + injection Hc as <-. exact Hsent.
Defined.

Lemma lookupLink_prefers_public_link_witness :
  lookupLink sampleInternalLink publicChannel = "https://t.me/durov"%string
  /\ lookupLink sampleInternalLink sampleChannel = EmptyString.
Proof.
  split.
  - exact (proj1 (proj1 (lookupLink_prefers_public_link
                           sampleInternalLink publicChannel) eq_refl)).
  - exact (proj1 (proj2 (lookupLink_prefers_public_link
                           sampleInternalLink sampleChannel) eq_refl)).
Defined.

Lemma copyLink_clipboard_and_toast_witness :
  let private := opened 0 sampleInternalLink 100 sampleWorld 7 in
  let public := opened 0 sampleInternalLink 100 (worldOf publicChannel) 7 in
  copyLink sampleInternalLink private = (false, private)
  /\ clipboard (world (exec (copyLink sampleInternalLink) public))
     = "https://t.me/durov"%string.
Proof.
  cbv zeta. split.
  - apply (proj1 (copyLink_clipboard_and_toast sampleInternalLink
                    (opened 0 sampleInternalLink 100 sampleWorld 7))).
    reflexivity.
  - apply (proj2 (copyLink_clipboard_and_toast sampleInternalLink
                    (opened 0 sampleInternalLink 100
                       (worldOf publicChannel) 7))).
    cbn. discriminate.
Defined.

Lemma picker_callbacks_update_names_witness :
  let a :=
    run sampleInternalLink 200
      (opened 0 sampleInternalLink 100 sampleWorld 7)
      [MicrophoneClicked; SpeakersClicked] in
  step sampleInternalLink 200 a (DeviceChosen MicrophonePicker "usb" "USB mic")
  = exec (microphoneChosen "usb" "USB mic") a
  /\ step sampleInternalLink 200 a (DeviceChosen SpeakersPicker "hdmi" "HDMI")
     = exec (speakersChosen "hdmi" "HDMI") a.
Proof.
  cbv zeta. split.
  - apply (proj2 (proj2 (picker_callbacks_update_names sampleInternalLink 200
                           (run sampleInternalLink 200
                              (opened 0 sampleInternalLink 100 sampleWorld 7)
                              [MicrophoneClicked; SpeakersClicked])
                           "usb" "USB mic")));
      reflexivity.
  - apply (proj2 (proj2 (picker_callbacks_update_names sampleInternalLink 200
                           (run sampleInternalLink 200
                              (opened 0 sampleInternalLink 100 sampleWorld 7)
                              [MicrophoneClicked; SpeakersClicked])
                           "hdmi" "HDMI")));
      reflexivity.
Defined.

(** C2, as stated, fails: the user checks the checkbox and then loses the
    right to manage the call.  Join-muted was changeable when the box was
    built, the checkbox exists and differs from the value taken then, yet
    closing the box sends nothing and the call keeps its value. *)
Lemma changed_checkbox_without_rights_is_not_saved :
  let a :=
    run sampleInternalLink 200
      (opened 0 sampleInternalLink 100 sampleWorld 7)
      [MuteJoinedClicked; ChannelUpdated memberChannel] in
  let closed := step sampleInternalLink 200 a DoneClicked in
  (weakBox (box a) = true
   /\ canChangeJoinMuted (box a) = true
   /\ muteJoined (box a) = Some true
   /\ joinMuted (box a) = false)
  /\ sent (world closed) = []
  /\ call (channel (world closed)) = Some sampleCall
  /\ Data.joinMuted sampleCall = false
  /\ world closed = world a.
Proof. cbv zeta. repeat split. Qed.

Lemma boxClosing_persists_iff_changed_and_allowed_witness :
  let untouched := opened 0 sampleInternalLink 100 sampleWorld 7 in
  let checked := step sampleInternalLink 200 untouched MuteJoinedClicked in
  sent (world (step sampleInternalLink 200 checked DoneClicked))
  = [MTPphone_ToggleGroupCallSettings [f_join_muted] 70 true]
  /\ world (step sampleInternalLink 200 untouched BoxClosed)
     = world untouched.
Proof.
  cbv zeta. split.
  - apply (proj1 (boxClosing_persists_iff_changed_and_allowed
                    sampleInternalLink 200
                    (step sampleInternalLink 200
                       (opened 0 sampleInternalLink 100 sampleWorld 7)
                       MuteJoinedClicked)
                    DoneClicked eq_refl (or_introl eq_refl))
             true sampleCall).
    repeat split; discriminate.
  - apply (proj1 (proj2 (boxClosing_persists_iff_changed_and_allowed
                           sampleInternalLink 200
                           (opened 0 sampleInternalLink 100 sampleWorld 7)
                           BoxClosed eq_refl (or_intror eq_refl)))).
    intros (checked & c & _ & Hsome & Hneq & _).
    injection Hsome as <-. apply Hneq. reflexivity.
Defined.

(** C7, as stated, fails: for a participant who cannot manage the call,
    in a channel without a link that cannot have one, the box has neither
    the share button nor the end-call button. *)
Lemma member_box_lacks_share_and_end :
  let b :=
    GroupCallSettingsBox 0 sampleInternalLink 100 (worldOf memberChannel) 7 in
  rows b
  = [ButtonWithLabel lng_group_call_speakers "Speakers";
     ButtonWithLabel lng_group_call_microphone "Microphone";
     LevelMeter; Skip]
  /\ ~ In (Button lng_group_call_share settingsButton) (rows b)
  /\ ~ In (Button lng_group_call_end settingsAttentionButton) (rows b).
Proof.
  cbv zeta. split; [reflexivity |].
  split; cbn; intuition discriminate.
Qed.

Lemma GroupCallSettingsBox_controls_witness :
  let b := GroupCallSettingsBox 0 sampleInternalLink 100 sampleWorld 7 in
  In LevelMeter (rows b)
  /\ In (Button lng_group_call_share settingsButton) (rows b)
  /\ In (Button lng_group_call_end settingsAttentionButton) (rows b).
Proof.
  cbv zeta.
  destruct (GroupCallSettingsBox_controls 0 sampleInternalLink 100
              sampleWorld 7) as (Hmeter & _ & _ & Hshare & Hend).
  split; [exact Hmeter |]. split.
  - apply Hshare. right. reflexivity.
  - apply Hend. reflexivity.
Defined.

(** C3, as stated, fails: an exported link that is empty becomes the
    invite link of the channel but is not copied; the clipboard keeps its
    text. *)
Lemma empty_exported_link_is_not_copied :
  let clicked :=
    step sampleInternalLink 200
      (opened 0 sampleInternalLink 100 sampleWorld 7) ShareClicked in
  let answered :=
    step sampleInternalLink 200 clicked
      (ExportChatInviteDone (chatInviteExported EmptyString)) in
  sent (world clicked) = [MTPmessages_ExportChatInvite 1]
  /\ inviteLink (channel (world answered)) = EmptyString
  /\ clipboard (world answered) = "old"%string
  /\ clipboard (world answered) <> EmptyString.
Proof.
  cbv zeta. repeat split. cbn. discriminate.
Qed.

(** The same for a channel that got a username while the request was on
    its way: the public link is copied, not the returned link. *)
Example exported_link_of_channel_made_public :
  let clicked :=
    step sampleInternalLink 200
      (opened 0 sampleInternalLink 100 sampleWorld 7) ShareClicked in
  let answered :=
    run sampleInternalLink 200 clicked
      [ChannelUpdated publicChannel;
       ExportChatInviteDone (chatInviteExported "https://t.me/joinchat/BBB")] in
  inviteLink (channel (world answered)) = "https://t.me/joinchat/BBB"%string
  /\ clipboard (world answered) = "https://t.me/durov"%string.
Proof. cbv zeta. split; reflexivity. Qed.

Lemma shareClicked_copies_or_exports_witness :
  let private := opened 0 sampleInternalLink 100 sampleWorld 7 in
  let public := opened 0 sampleInternalLink 100 (worldOf publicChannel) 7 in
  sent (world (exec (shareClicked sampleInternalLink) private))
  = [MTPmessages_ExportChatInvite 1]
  /\ clipboard (world (exec (shareClicked sampleInternalLink) public))
     = "https://t.me/durov"%string
  /\ clipboard
       (world
          (exec
             (exportChatInviteDone sampleInternalLink
                (chatInviteExported "https://t.me/joinchat/BBB"))
             private))
     = "https://t.me/joinchat/BBB"%string.
Proof.
  cbv zeta. split; [| split].
  - apply (proj1 (proj2 (shareClicked_copies_or_exports sampleInternalLink
                           (opened 0 sampleInternalLink 100 sampleWorld 7))));
      reflexivity.
  - apply (proj1 (shareClicked_copies_or_exports sampleInternalLink
                    (opened 0 sampleInternalLink 100
                       (worldOf publicChannel) 7))).
    cbn. discriminate.
  - apply (proj2 (proj2 (shareClicked_copies_or_exports sampleInternalLink
                           (opened 0 sampleInternalLink 100 sampleWorld 7)))
             "https://t.me/joinchat/BBB"%string).
    + reflexivity.
    + discriminate.
Defined.

Lemma at_most_one_ExportChatInvite_witness :
  let a :=
    run sampleInternalLink 200
      (opened 0 sampleInternalLink 100 sampleWorld 7)
      [ShareClicked; ExportChatInviteFail; ShareClicked;
       ExportChatInviteDone chatInviteEmpty; ShareClicked] in
  (exports (sent (world a)) <= 1)%nat
  /\ exports (sent (world (step sampleInternalLink 200 a ShareClicked)))
     = exports (sent (world a)).
Proof.
  cbv zeta.
  destruct (at_most_one_ExportChatInvite 0 sampleInternalLink 100 200
              sampleWorld 7
              [ShareClicked; ExportChatInviteFail; ShareClicked;
               ExportChatInviteDone chatInviteEmpty; ShareClicked])
    as (Hle & _ & _ & Hkeep).
  split; [exact Hle |].
  exact (proj2 (Hkeep [ShareClicked] eq_refl)).
Defined.

Lemma stale_call_never_saves_witness :
  goodReal (channel sampleWorld) 8 = false
  /\ toggles
       (sent
          (world
             (run sampleInternalLink 200
                (opened 0 sampleInternalLink 100 sampleWorld 8)
                [MuteJoinedClicked; DoneClicked])))
     = [].
Proof.
  split; [reflexivity |].
  apply (stale_call_never_saves 0 sampleInternalLink 100 200 sampleWorld 8
           [MuteJoinedClicked; DoneClicked]).
  reflexivity.
Defined.

Lemma levelUpdateTimer_polls_and_animates_witness :
  let a :=
    run sampleInternalLink 200
      (opened 0 sampleInternalLink 100 sampleWorld 7)
      [LevelUpdateTimer 3; ShareClicked] in
  weakBox (box a) = true
  /\ micLevelAnimation
       (state (box (step sampleInternalLink 200 a (LevelUpdateTimer 5))))
     = Some {| from := 3; to := 5; duration := 200 |}.
Proof.
  cbv zeta. split; [reflexivity |].
  apply (proj1 (proj2 (levelUpdateTimer_polls_and_animates
                         0 sampleInternalLink 100 200 sampleWorld 7
                         [LevelUpdateTimer 3; ShareClicked] 5))).
  reflexivity.
Defined.

(** ** The further properties at sample inputs *)

Lemma closing_for_stale_call_changes_nothing_witness :
  let a :=
    run sampleInternalLink 200
      (opened 0 sampleInternalLink 100 sampleWorld 7)
      [MuteJoinedClicked; ChannelUpdated memberChannel;
       ChannelUpdated (withCall None sampleChannel)] in
  muteJoined (box a) = Some true
  /\ world (step sampleInternalLink 200 a DoneClicked) = world a.
Proof.
  cbv zeta. split; [reflexivity |].
  apply (closing_for_stale_call_changes_nothing sampleInternalLink 200
           (run sampleInternalLink 200
              (opened 0 sampleInternalLink 100 sampleWorld 7)
              [MuteJoinedClicked; ChannelUpdated memberChannel;
               ChannelUpdated (withCall None sampleChannel)])).
  reflexivity.
Defined.

Lemma open_and_close_changes_nothing_witness :
  world
    (step sampleInternalLink 200
       (run sampleInternalLink 200
          (opened 0 sampleInternalLink 100 sampleWorld 7)
          (repeat MuteJoinedClicked 4))
       DoneClicked)
  = sampleWorld.
Proof.
  apply (open_and_close_changes_nothing 0 sampleInternalLink 100 200
           sampleWorld 7 4).
  reflexivity.
Defined.

Lemma changed_checkbox_is_saved_on_close_witness :
  exists real,
    call (channel sampleWorld) = Some real
    /\ sent
         (world
            (step sampleInternalLink 200
               (run sampleInternalLink 200
                  (opened 0 sampleInternalLink 100 sampleWorld 7)
                  (repeat MuteJoinedClicked 3))
               DoneClicked))
       = sent sampleWorld
         ++ [MTPphone_ToggleGroupCallSettings
               [f_join_muted] (Data.input real)
               (negb (Data.joinMuted real))].
Proof.
  destruct (changed_checkbox_is_saved_on_close 0 sampleInternalLink 100 200
              sampleWorld 7 3)
    as (real & Hreal & _ & Hsent & _).
  - reflexivity.
  - cbn. discriminate.
  - exists real. split; assumption.
Defined.

Lemma at_most_one_ToggleGroupCallSettings_witness :
  (List.length
     (toggles
        (sent
           (world
              (run sampleInternalLink 200
                 (opened 0 sampleInternalLink 100 sampleWorld 7)
                 [MuteJoinedClicked; DoneClicked; DoneClicked;
                  EndClicked]))))
   <= 1)%nat.
Proof.
  exact (proj2 (proj2 (at_most_one_ToggleGroupCallSettings
                         0 sampleInternalLink 100 200 sampleWorld 7
                         [MuteJoinedClicked; DoneClicked; DoneClicked;
                          EndClicked]))).
Defined.

Lemma without_manage_rights_nothing_is_changed_witness :
  toggles
    (sent
       (world
          (run sampleInternalLink 200
             (opened 0 sampleInternalLink 100 (worldOf memberChannel) 7)
             [ChannelUpdated sampleChannel; MuteJoinedClicked; EndClicked;
              DoneClicked])))
  = [].
Proof.
  apply (without_manage_rights_nothing_is_changed
           0 sampleInternalLink 100 200 (worldOf memberChannel) 7
           [ChannelUpdated sampleChannel; MuteJoinedClicked; EndClicked;
            DoneClicked]).
  reflexivity.
Defined.

Lemma after_call_destroyed_no_leave_box_witness :
  let a :=
    step sampleInternalLink 200
      (opened 0 sampleInternalLink 100 sampleWorld 7) CallDestroyed in
  step sampleInternalLink 200
    (run sampleInternalLink 200 a [MuteJoinedClicked]) EndClicked
  = run sampleInternalLink 200 a [MuteJoinedClicked].
Proof.
  cbv zeta.
  apply (after_call_destroyed_no_leave_box sampleInternalLink 200
           (step sampleInternalLink 200
              (opened 0 sampleInternalLink 100 sampleWorld 7) CallDestroyed)
           [MuteJoinedClicked]).
  reflexivity.
Defined.

Lemma without_share_button_nothing_is_exported_witness :
  exports
    (sent
       (world
          (run sampleInternalLink 200
             (opened 0 sampleInternalLink 100 (worldOf memberChannel) 7)
             [ChannelUpdated sampleChannel; ShareClicked; ShareClicked])))
  = O.
Proof.
  apply (without_share_button_nothing_is_exported
           0 sampleInternalLink 100 200 (worldOf memberChannel) 7
           [ChannelUpdated sampleChannel; ShareClicked; ShareClicked]);
    reflexivity.
Defined.

Lemma destroyed_box_is_left_alone_witness :
  let closed :=
    run sampleInternalLink 200
      (opened 0 sampleInternalLink 100 sampleWorld 7)
      [MicrophoneClicked; ShareClicked; DoneClicked] in
  let later :=
    run sampleInternalLink 200 closed
      [DeviceChosen MicrophonePicker "usb" "USB mic"; LevelUpdateTimer 3] in
  box later = box closed
  /\ clipboard
       (world
          (step sampleInternalLink 200 later
             (ExportChatInviteDone
                (chatInviteExported "https://t.me/joinchat/BBB"))))
     = "https://t.me/joinchat/BBB"%string.
Proof.
  cbv zeta.
  destruct (destroyed_box_is_left_alone sampleInternalLink 200
              (run sampleInternalLink 200
                 (opened 0 sampleInternalLink 100 sampleWorld 7)
                 [MicrophoneClicked; ShareClicked; DoneClicked])
              [DeviceChosen MicrophonePicker "usb" "USB mic";
               LevelUpdateTimer 3]
              "https://t.me/joinchat/BBB")
    as (Hbox & _ & _ & Hlate & _).
  - reflexivity.
  - split; [exact Hbox |].
    apply Hlate; [cbn; discriminate | reflexivity | discriminate].
Defined.

Lemma meter_follows_animation_witness :
  let a :=
    run sampleInternalLink 200
      (opened 0 sampleInternalLink 100 sampleWorld 7)
      [LevelUpdateTimer 3; LevelAnimationFrame (Some 1); LevelUpdateTimer 5] in
  weakBox (box a) = true
  /\ micTestLevel
       (state (box (step sampleInternalLink 200 a (LevelAnimationFrame None))))
     = 5.
Proof.
  cbv zeta. split; [reflexivity |].
  destruct (meter_follows_animation
              0 sampleInternalLink 100 200 sampleWorld 7
              [LevelUpdateTimer 3; LevelAnimationFrame (Some 1);
               LevelUpdateTimer 5]) as (_ & Hfired & _).
  destruct Hfired as [Hlast _].
  - reflexivity.
  - cbn. discriminate.
  - exact Hlast.
Defined.

Lemma tester_follows_chosen_microphone_witness :
  deviceId
    (micTester
       (state
          (box
             (run sampleInternalLink 200
                (step sampleInternalLink 200
                   (run sampleInternalLink 200
                      (opened 0 sampleInternalLink 100 sampleWorld 7)
                      [MicrophoneClicked])
                   (DeviceChosen MicrophonePicker "usb" "USB mic"))
                [SpeakersClicked; DeviceChosen SpeakersPicker "hdmi" "HDMI";
                 LevelUpdateTimer 3]))))
  = "usb"%string.
Proof.
  apply (proj2 (tester_follows_chosen_microphone
                  0 sampleInternalLink 100 200 sampleWorld 7
                  [MicrophoneClicked]
                  [SpeakersClicked; DeviceChosen SpeakersPicker "hdmi" "HDMI";
                   LevelUpdateTimer 3]
                  "usb" "USB mic" eq_refl));
    reflexivity.
Defined.

Lemma exported_link_is_reused_witness :
  let a := opened 0 sampleInternalLink 100 sampleWorld 7 in
  sent
    (world
       (run sampleInternalLink 200 a
          [ShareClicked;
           ExportChatInviteDone
             (chatInviteExported "https://t.me/joinchat/BBB");
           ShareClicked]))
  = [MTPmessages_ExportChatInvite 1].
Proof.
  cbv zeta.
  apply (exported_link_is_reused sampleInternalLink 200
           (opened 0 sampleInternalLink 100 sampleWorld 7)
           "https://t.me/joinchat/BBB");
    try reflexivity.
  discriminate.
Defined.
